(** * Golem stack file API: content-addressed ingestion, deletion and search

    A shallow embedding of the two file services of the repository:
    - [ExampleApi]: the Bun/Hono service (routes/files.ts,
      services/database.ts, utils/checksum.ts);
    - [Ci4]: the CodeIgniter 4 service (FileController.php, FileModel.php,
      ChecksumService.php).

    Both keep their metadata in a PostgreSQL table [files] of the same
    schema and their blobs in an upload directory.  The table is a list of
    rows in insertion order, the upload directory a finite map from path
    to contents.  Values the code obtains
    from its environment (clock, random suffix, generated uuid, whether a
    disk or database operation goes through) are explicit arguments. *)

From Stdlib Require Import ZArith NArith String Ascii List Lia.
From Stdlib.Strings Require Import Byte.
From Stdlib Require Import HexadecimalString.
From stdpp Require Import base decidable option list strings gmap pretty sorting.

Import ListNotations.
Local Open Scope Z_scope.

(** Raw contents: what a JS [Uint8Array] or a PHP binary string holds. *)
Abbreviation Bytes := (list byte).

#[global] Instance byte_eq_dec : EqDecision byte := Byte.byte_eq_dec.

(* ===================================================================== *)
(** ** SHA-256 (FIPS 180-4), the digest both services request by name    *)
(* ===================================================================== *)

Module SHA256.

Definition w32 : Z := 2 ^ 32.

Definition add32 (x y : Z) : Z := (x + y) mod w32.

Definition rotr (n x : Z) : Z :=
  Z.lor (Z.shiftr x n) (Z.shiftl x (32 - n) mod w32).

Definition shr (n x : Z) : Z := Z.shiftr x n.

Definition not32 (x : Z) : Z := Z.lxor x (w32 - 1).

Definition Ch (x y z : Z) : Z :=
  Z.lxor (Z.land x y) (Z.land (not32 x) z).

Definition Maj (x y z : Z) : Z :=
  Z.lxor (Z.lxor (Z.land x y) (Z.land x z)) (Z.land y z).

Definition Sigma0 (x : Z) : Z :=
  Z.lxor (Z.lxor (rotr 2 x) (rotr 13 x)) (rotr 22 x).

Definition Sigma1 (x : Z) : Z :=
  Z.lxor (Z.lxor (rotr 6 x) (rotr 11 x)) (rotr 25 x).

Definition sigma0 (x : Z) : Z :=
  Z.lxor (Z.lxor (rotr 7 x) (rotr 18 x)) (shr 3 x).

Definition sigma1 (x : Z) : Z :=
  Z.lxor (Z.lxor (rotr 17 x) (rotr 19 x)) (shr 10 x).

(** The first [n] primes, by trial division. *)
Definition is_prime (n : nat) : bool :=
  forallb (fun d => negb (n mod d =? 0)%nat) (seq 2 (n - 2)).

Definition primes (n : nat) : list Z :=
  Z.of_nat <$> firstn n (List.filter is_prime (seq 2 400)).

(** Largest [r] below [2 ^ bits] with [r ^ 3 <= n]. *)
Definition cube_root (bits : nat) (n : Z) : Z :=
  fold_left (fun r b => if (r + 2 ^ b) ^ 3 <=? n then r + 2 ^ b else r)
    (Z.of_nat <$> rev (seq 0 bits)) 0.

(** The round constants: the first 32 bits of the fractional parts of the
    cube roots of the first 64 primes. *)
Definition K : list Z :=
  Eval vm_compute in (fun p => cube_root 36 (p * 2 ^ 96) mod w32) <$> primes 64.

(** The eight working words a..h, also the running hash value. *)
Record state := State {
  ha : Z; hb : Z; hc : Z; hd : Z; he : Z; hf : Z; hg : Z; hh : Z }.

(** The initial hash value: the first 32 bits of the fractional parts of
    the square roots of the first 8 primes. *)
Definition H0 : state :=
  Eval vm_compute in
    match (fun p => Z.sqrt (p * 2 ^ 64) mod w32) <$> primes 8 with
    | [a; b; c; d; e; f; g; h] => State a b c d e f g h
    | _ => State 0 0 0 0 0 0 0 0
    end.

Definition byte_to_Z (b : byte) : Z := Z.of_N (Byte.to_N b).

Definition byte_of_Z (z : Z) : byte :=
  match Byte.of_N (Z.to_N (z mod 256)) with
  | Some b => b
  | None => x00
  end.

(** The low [n] bytes of [z], most significant first. *)
Definition be_bytes (n : nat) (z : Z) : Bytes :=
  List.map (fun i => byte_of_Z (Z.shiftr z (8 * Z.of_nat i))) (rev (seq 0 n)).

(** Padding: a 1 bit, zeros up to 56 mod 64, the bit length on 8 bytes. *)
Definition pad (msg : Bytes) : Bytes :=
  let len := Z.of_nat (length msg) in
  let zeros := Z.to_nat ((55 - len) mod 64) in
  msg ++ [x80] ++ repeat x00 zeros ++ be_bytes 8 (8 * len).

Definition word_of (b3 b2 b1 b0 : byte) : Z :=
  Z.lor (Z.shiftl (byte_to_Z b3) 24)
    (Z.lor (Z.shiftl (byte_to_Z b2) 16)
       (Z.lor (Z.shiftl (byte_to_Z b1) 8) (byte_to_Z b0))).

Fixpoint words (bs : Bytes) : list Z :=
  match bs with
  | b3 :: b2 :: b1 :: b0 :: rest => word_of b3 b2 b1 b0 :: words rest
  | _ => []
  end.

(** Message schedule: [window] holds W(t-16) .. W(t-1), oldest first. *)
Fixpoint schedule (n : nat) (window : list Z) : list Z :=
  match n, window with
  | S n', w16 :: rest =>
      let w15 := nth 0 rest 0 in
      let w7 := nth 8 rest 0 in
      let w2 := nth 13 rest 0 in
      let wt := add32 (add32 (sigma1 w2) w7) (add32 (sigma0 w15) w16) in
      w16 :: schedule n' (rest ++ [wt])
  | _, _ => []
  end.

Definition round (s : state) (kw : Z * Z) : state :=
  let '(k, w) := kw in
  let T1 := add32 (add32 (add32 (hh s) (Sigma1 (he s)))
                         (add32 (Ch (he s) (hf s) (hg s)) k)) w in
  let T2 := add32 (Sigma0 (ha s)) (Maj (ha s) (hb s) (hc s)) in
  State (add32 T1 T2) (ha s) (hb s) (hc s) (add32 (hd s) T1) (he s) (hf s) (hg s).

Definition compress (h : state) (block : list Z) : state :=
  let s := fold_left round (combine K (schedule 64 block)) h in
  State (add32 (ha h) (ha s)) (add32 (hb h) (hb s))
        (add32 (hc h) (hc s)) (add32 (hd h) (hd s))
        (add32 (he h) (he s)) (add32 (hf h) (hf s))
        (add32 (hg h) (hg s)) (add32 (hh h) (hh s)).

(** One compression per block of sixteen words. *)
Fixpoint blocks (ws : list Z) (h : state) : state :=
  match ws with
  | w0 :: w1 :: w2 :: w3 :: w4 :: w5 :: w6 :: w7
    :: w8 :: w9 :: w10 :: w11 :: w12 :: w13 :: w14 :: w15 :: rest =>
      blocks rest
        (compress h [w0; w1; w2; w3; w4; w5; w6; w7; w8; w9; w10; w11; w12; w13; w14; w15])
  | _ => h
  end.

Definition digest (msg : Bytes) : Bytes :=
  let h := blocks (words (pad msg)) H0 in
  be_bytes 4 (ha h) ++ be_bytes 4 (hb h) ++ be_bytes 4 (hc h) ++
  be_bytes 4 (hd h) ++ be_bytes 4 (he h) ++ be_bytes 4 (hf h) ++
  be_bytes 4 (hg h) ++ be_bytes 4 (hh h).

End SHA256.

(** [n.toString(16)] on a non-negative integer: lowercase digits, no
    leading zero. *)
Definition toString16 (n : N) : string :=
  NilZero.string_of_uint (N.to_hex_uint n).

(** [s.padStart(len, fill)] for a one-character [fill]. *)
Definition padStart (len : nat) (fill : ascii) (s : string) : string :=
  string_of_list_ascii (repeat fill (len - String.length s)) +:+ s.

(** [hashArray.map(b => b.toString(16).padStart(2, "0")).join("")] *)
Definition hex_of_bytes (hash : Bytes) : string :=
  String.concat "" (List.map (fun b => padStart 2 "0"%char (toString16 (Byte.to_N b))) hash).

Definition bytes_of_string (s : string) : Bytes := list_byte_of_string s.


(* ===================================================================== *)
(** ** Data model: one row of the [files] table                          *)
(* ===================================================================== *)

(** [interface FileRecord] of services/database.ts; the columns of
    migrations/001_create_files_table.sql.  Timestamps are instants
    (microseconds since the epoch), as TIMESTAMP WITH TIME ZONE stores
    them. *)
Module FileRecord.
Record t := mk {
  id : string;
  filename : string;
  original_name : string;
  size : Z;
  mime_type : string;
  checksum : string;
  uploaded_at : Z;
  uploaded_by : string;
  uploaded_instance : string;
  created_at : Z;
  updated_at : Z }.
End FileRecord.

#[global] Instance FileRecord_eq_dec : EqDecision FileRecord.t.
Proof. solve_decision. Defined.

(** [interface FileInsert]: what a caller hands to the insert. *)
Module FileInsert.
Record t := mk {
  filename : string;
  original_name : string;
  size : Z;
  mime_type : string;
  checksum : string;
  uploaded_by : option string;
  uploaded_instance : string }.
End FileInsert.

(** The table, oldest row first. *)
Abbreviation Table := (list FileRecord.t).

(** The dedup key of the schema, [idx_files_checksum_size]. *)
Definition same_content (checksum : string) (size : Z) (r : FileRecord.t) : Prop :=
  FileRecord.checksum r = checksum ∧ FileRecord.size r = size.

#[global] Instance same_content_dec c s r : Decision (same_content c s r).
Proof. unfold same_content. apply _. Defined.

(** Rows a lookup by display name addresses. *)
Definition named (originalName : string) (r : FileRecord.t) : Prop :=
  FileRecord.original_name r = originalName.

#[global] Instance named_dec n r : Decision (named n r).
Proof. unfold named. apply _. Defined.

(* ===================================================================== *)
(** ** The PostgreSQL side: constraints of the schema, ORDER BY, ILIKE   *)
(* ===================================================================== *)

Module Pg.

(** Whether the statements of one call reach the server. *)
Inductive Conn := Up | Down.

Inductive Error :=
| string_data_right_truncation (column : string)   (* 22001 *)
| numeric_value_out_of_range (column : string)     (* 22003 *)
| check_violation (constraint : string)            (* 23514 *)
| unique_violation (index : string).               (* 23505 *)

(** VARCHAR(n): at most [n] characters, counted here as bytes. *)
Definition varchar (n : nat) (s : string) : bool :=
  (String.length s <=? n)%nat.

Definition bigint (z : Z) : bool :=
  (- 2 ^ 63 <=? z) && (z <? 2 ^ 63).

Definition first_error (checks : list (bool * Error)) : option Error :=
  snd <$> head (List.filter (fun c => negb (fst c)) checks).

(** Column types, then CHECK (size > 0), then the three unique indexes:
    primary key, [filename] UNIQUE, and the (checksum, size) pair. *)
Definition violation (db : Table) (row : FileRecord.t) : option Error :=
  first_error
    [ (varchar 255 (FileRecord.filename row), string_data_right_truncation "filename");
      (varchar 255 (FileRecord.original_name row), string_data_right_truncation "original_name");
      (bigint (FileRecord.size row), numeric_value_out_of_range "size");
      (varchar 100 (FileRecord.mime_type row), string_data_right_truncation "mime_type");
      (varchar 64 (FileRecord.checksum row), string_data_right_truncation "checksum");
      (varchar 100 (FileRecord.uploaded_by row), string_data_right_truncation "uploaded_by");
      (varchar 50 (FileRecord.uploaded_instance row), string_data_right_truncation "uploaded_instance");
      (0 <? FileRecord.size row, check_violation "files_size_check");
      (bool_decide (FileRecord.id row ∉ FileRecord.id <$> db), unique_violation "files_pkey");
      (bool_decide (FileRecord.filename row ∉ FileRecord.filename <$> db),
        unique_violation "files_filename_key");
      (bool_decide (filter (same_content (FileRecord.checksum row) (FileRecord.size row)) db = []),
        unique_violation "idx_files_checksum_size") ].

(** INSERT INTO files ... RETURNING *: the new row goes last. *)
Definition insert (db : Table) (row : FileRecord.t) : Error + Table :=
  match violation db row with
  | Some e => inl e
  | None => inr (db ++ [row])
  end.

(** ORDER BY uploaded_at DESC.  Rows with equal instants keep their
    table order. *)
Fixpoint insert_desc (r : FileRecord.t) (l : Table) : Table :=
  match l with
  | [] => [r]
  | x :: l' =>
      if FileRecord.uploaded_at x <=? FileRecord.uploaded_at r
      then r :: l
      else x :: insert_desc r l'
  end.

Definition order_by_uploaded_at_desc (l : Table) : Table :=
  foldr insert_desc [] l.

(** Case folding of ILIKE, on the ASCII letters. *)
Definition lower (c : ascii) : ascii :=
  let n := nat_of_ascii c in
  if ((65 <=? n) && (n <=? 90))%nat then ascii_of_nat (n + 32) else c.

(** [s LIKE p ESCAPE esc] after case folding: [%] any run of
    characters, [_] any one character, [esc] takes the next pattern
    character literally. *)
Fixpoint like (esc : ascii) (p : list ascii) : list ascii → bool :=
  match p with
  | [] => fun s => match s with [] => true | _ => false end
  | c :: p' =>
      if Ascii.eqb c "%"%char then
        fix skip (s : list ascii) : bool :=
          like esc p' s || match s with [] => false | _ :: s' => skip s' end
      else if Ascii.eqb c "_"%char then
        fun s => match s with [] => false | _ :: s' => like esc p' s' end
      else if Ascii.eqb c esc then
        match p' with
        | [] => fun _ => false
        | e :: p'' =>
            fun s => match s with
                     | [] => false
                     | x :: s' => Ascii.eqb (lower e) (lower x) && like esc p'' s'
                     end
        end
      else
        fun s => match s with
                 | [] => false
                 | x :: s' => Ascii.eqb (lower c) (lower x) && like esc p' s'
                 end
  end.

(** [s ILIKE pattern], with the default escape character. *)
Definition ilike (s pattern : string) : bool :=
  like "\"%char (list_ascii_of_string pattern) (list_ascii_of_string s).


(** A value bound to LIMIT or OFFSET: a bigint that is not negative;
    any other value fails the statement. *)
Definition row_count (z : Z) : option nat :=
  if (0 <=? z) && bigint z then Some (Z.to_nat z) else None.

(** The aggregates of the statistics queries.  COUNT is 0 over no rows;
    SUM, AVG, MAX and MIN are NULL. *)
Definition count (l : Table) : Z := Z.of_nat (length l).

Definition sum_size (l : Table) : option Z :=
  match l with
  | [] => None
  | _ => Some (foldr (λ r s, FileRecord.size r + s) 0 l)
  end.

(** AVG(size), as the exact quotient. *)
Definition avg_size (l : Table) : option QArith_base.Q :=
  (λ s, QArith_base.Qmake s (Pos.of_nat (length l))) <$> sum_size l.

Definition max_uploaded_at (l : Table) : option Z :=
  foldr (λ r m, Some (from_option (Z.max (FileRecord.uploaded_at r))
                        (FileRecord.uploaded_at r) m)) None l.

Definition min_uploaded_at (l : Table) : option Z :=
  foldr (λ r m, Some (from_option (Z.min (FileRecord.uploaded_at r))
                        (FileRecord.uploaded_at r) m)) None l.

Definition of_instance (i : string) (r : FileRecord.t) : Prop :=
  FileRecord.uploaded_instance r = i.

#[global] Instance of_instance_dec i r : Decision (of_instance i r).
Proof. unfold of_instance. apply _. Defined.

(** More rows first. *)
Definition more_rows (a b : string * Table) : Prop :=
  (length b.2 ≤ length a.2)%nat.

#[global] Instance more_rows_dec a b : Decision (more_rows a b).
Proof. unfold more_rows. apply _. Defined.

(** GROUP BY uploaded_instance ORDER BY file_count DESC: one group for
    each value of the column, larger groups first. *)
Definition group_by_instance (l : Table) : list (string * Table) :=
  merge_sort more_rows
    ((λ i, (i, filter (of_instance i) l)) <$> remove_dups (FileRecord.uploaded_instance <$> l)).

End Pg.

(** JavaScript truthiness of a string: only the empty string is falsy. *)
Definition truthy (s : string) : bool := negb (String.eqb s "").


(* ===================================================================== *)
(** ** What a request handler can touch                                  *)
(* ===================================================================== *)

(** Effects in the order a handler performs them. *)
Inductive Effect :=
| Hashed (input : Bytes)
| Sql (call : string)
| FsWrite (path : string)
| FsRemove (path : string).

Record World := mkWorld {
  files : Table;                     (* the metadata store *)
  uploads : gmap string Bytes;       (* the blob store, by path *)
  trace : list Effect }.

Definition emit (e : Effect) (w : World) : World :=
  mkWorld (files w) (uploads w) (trace w ++ [e]).

Definition set_files (db : Table) (w : World) : World :=
  mkWorld db (uploads w) (trace w).

Definition set_uploads (u : gmap string Bytes) (w : World) : World :=
  mkWorld (files w) u (trace w).

(** Bodies of the JSON responses. *)
Module Body.
Record Upload := mkUpload {
  message : string;
  id : string;
  filename : string;
  size : Z;
  type : string;
  checksum : string;
  uploadedAt : Z;
  duplicate : option bool }.       (* [None]: the field is not sent *)

Record Hit := mkHit {
  hit_id : string;
  hit_filename : string;
  hit_size : Z;
  hit_type : string;
  hit_uploadedAt : Z;
  hit_instance : string }.

Inductive t :=
| Error (error : string)
| Uploaded (u : Upload)
| Deleted (message filename : string)
| Search (files : list Hit) (count : nat) (query : string).
End Body.

Record Response := json { body : Body.t; status : nat }.


(** A response of a route that answers with JSON of its own shape, or
    with [{ error }] and a status. *)
Inductive Reply (A : Type) :=
| Sent (body : A) (status : nat)
| Failed (error : string) (status : nat).
Arguments Sent {A} body status.
Arguments Failed {A} error status.

(** The double quote. *)
Definition quote : ascii := "034"%char.

(** The headers and the body of a download. *)
Record Download := mkDownload {
  Content_Type : string;
  Content_Disposition : string;
  Content_Length : string;
  X_File_ID : string;
  X_File_Checksum : string;
  X_Uploaded_At : Z;
  X_Uploaded_Instance : string;
  payload : Bytes }.

(** What [getStorageStats] returns.  [averageSize] is the exact mean;
    the services hold the double next to it. *)
Module Stats.
Record Instance := mkInstance {
  files : Z;
  size : Z }.

Record t := mk {
  totalFiles : Z;
  totalSize : Z;
  averageSize : QArith_base.Q;
  latestUpload : option Z;
  earliestUpload : option Z;
  instanceDistribution : gmap string Instance }.
End Stats.

(** The object the reduce over the per-instance rows builds. *)
Definition instance_distribution (instanceStats : list (string * Table))
    : gmap string Stats.Instance :=
  foldl (λ acc stat,
           <[stat.1 := Stats.mkInstance (Pg.count stat.2) (default 0 (Pg.sum_size stat.2))]> acc)
    ∅ instanceStats.

(* ===================================================================== *)
(** ** example-api: the Bun service                                      *)
(* ===================================================================== *)

Module ExampleApi.

(** *** utils/checksum.ts *)

Record File := mkFile {
  name : string;
  type : string;
  size : Z;                         (* the [size] property *)
  content : Bytes }.

(** Values a caller can pass where a file-like object is expected. *)
Inductive Value :=
| Buffer (data : Bytes)
| ArrayBuffer (data : Bytes)
| Blob (type : string) (data : Bytes)
| FileObject (f : File)
| Uint8Array (data : Bytes)
| Str (s : string)
| Num (n : Z)
| Null
| Undefined.

Inductive Class := BufferClass | ArrayBufferClass | BlobClass.

(** [v instanceof C]; [File] extends [Blob]. *)
Definition instanceof (v : Value) (c : Class) : bool :=
  match v, c with
  | Buffer _, BufferClass => true
  | ArrayBuffer _, ArrayBufferClass => true
  | Blob _ _, BlobClass => true
  | FileObject _, BlobClass => true
  | _, _ => false
  end.

(** The bytes behind a buffer-like value. *)
Definition bytes_of (v : Value) : Bytes :=
  match v with
  | Buffer d | ArrayBuffer d | Blob _ d | Uint8Array d => d
  | FileObject f => content f
  | _ => []
  end.

(** Bun defines both globals, so both [typeof] guards hold. *)
Definition typeof_Buffer_defined : bool := true.
Definition typeof_Blob_defined : bool := true.

Inductive Exception := TypeError (message : string).

Inductive Promise (A : Type) :=
| resolved (a : A)
| rejected (e : Exception).
Arguments resolved {A} a.
Arguments rejected {A} e.

Definition calculateChecksum (file : Value) : Promise string :=
  let arrayBuffer :=
    if typeof_Buffer_defined && instanceof file BufferClass then Some (bytes_of file)
    else if instanceof file ArrayBufferClass then Some (bytes_of file)
    else if typeof_Blob_defined && instanceof file BlobClass then Some (bytes_of file)
    else None in
  match arrayBuffer with
  | None => rejected (TypeError "Unsupported file type for checksum calculation")
  | Some arrayBuffer =>
      let hashBuffer := SHA256.digest arrayBuffer in
      resolved (hex_of_bytes hashBuffer)
  end.

(** *** services/database.ts *)

(** [x || y] on strings. *)
Definition or_else (x : option string) (y : string) : string :=
  match x with
  | Some s => if truthy s then s else y
  | None => y
  end.

(** The row INSERT builds: [id] and the three timestamps come from the
    column defaults. *)
Definition new_row (uuid : string) (now : Z) (fileData : FileInsert.t) : FileRecord.t :=
  FileRecord.mk uuid
    (FileInsert.filename fileData)
    (FileInsert.original_name fileData)
    (FileInsert.size fileData)
    (FileInsert.mime_type fileData)
    (FileInsert.checksum fileData)
    now
    (or_else (FileInsert.uploaded_by fileData) "api-user")
    (FileInsert.uploaded_instance fileData)
    now now.

(** [insertFile].  [uuid] and [now] are what gen_random_uuid() and NOW()
    yield; [meanwhile] are the rows other transactions commit after this
    transaction's SELECT and before its INSERT (none when the call runs
    alone).  A statement that throws rolls the transaction back and
    lands in the [catch], which returns null. *)
Definition insertFile (conn : Pg.Conn) (uuid : string) (now : Z) (meanwhile : Table)
    (db : Table) (fileData : FileInsert.t) : Table * option FileRecord.t :=
  match conn with
  | Pg.Down => (db ++ meanwhile, None)
  | Pg.Up =>
      let matching :=
        filter (same_content (FileInsert.checksum fileData) (FileInsert.size fileData)) db in
      let existing := FileRecord.filename <$> matching in
      if (0 <? length existing)%nat then
        match head matching with
        | Some existingFile =>
            if truthy (FileRecord.id existingFile) && truthy (FileRecord.filename existingFile)
            then (db ++ meanwhile, Some existingFile)
            else (db ++ meanwhile, None)
        | None => (db ++ meanwhile, None)
        end
      else
        let newFile := new_row uuid now fileData in
        match Pg.insert (db ++ meanwhile) newFile with
        | inl _ => (db ++ meanwhile, None)
        | inr db' => (db', Some newFile)
        end
  end.

Definition getFileByOriginalName (conn : Pg.Conn) (db : Table) (originalName : string)
    : option FileRecord.t :=
  match conn with
  | Pg.Down => None
  | Pg.Up => head (Pg.order_by_uploaded_at_desc (filter (named originalName) db))
  end.

(** [deleteFile]: SELECT ... FOR UPDATE, throw if there is no row, then
    DELETE FROM files WHERE original_name = $1. *)
Definition deleteFile (conn : Pg.Conn) (db : Table) (originalName : string) : Table * bool :=
  match conn with
  | Pg.Down => (db, false)
  | Pg.Up =>
      match filter (named originalName) db with
      | [] => (db, false)
      | file :: _ =>
          let kept := filter (λ r, ¬ named originalName r) db in
          let count := (length db - length kept)%nat in
          (kept, (0 <? count)%nat)
      end
  end.

Definition search_hit (query : string) (r : FileRecord.t) : bool :=
  Pg.ilike (FileRecord.original_name r) ("%" +:+ query +:+ "%")
  || Pg.ilike (FileRecord.mime_type r) ("%" +:+ query +:+ "%").

(** [searchFiles(query, limit = 50)] *)
Definition searchFiles (conn : Pg.Conn) (db : Table) (query : string) (limit : option nat)
    : Table :=
  let limit := default 50%nat limit in
  match conn with
  | Pg.Down => []
  | Pg.Up => take limit (Pg.order_by_uploaded_at_desc (List.filter (search_hit query) db))
  end.

(** *** routes/files.ts *)

Definition maxSize : Z := 100 * 1024 * 1024.

(** What [formData.get("file")] yields: null, the text of a plain field,
    or a file. *)
Inductive Field :=
| NoField
| TextField (s : string)
| FileField (f : File).

(** The multipart body: unreadable, or a form. *)
Inductive Request :=
| Unreadable
| FormData (file : Field).

Record UploadEnv := mkUploadEnv {
  Date_now : N;                     (* Date.now() *)
  randomId : string;                (* Math.random().toString(36).substring(2, 8) *)
  instanceId : string;              (* INSTANCE_ID || APP_NAME || "unknown" *)
  insert_conn : Pg.Conn;
  gen_random_uuid : string;
  NOW : Z;
  meanwhile : Table;
  write_ok : bool;                  (* Bun.write resolves *)
  compensate_conn : Pg.Conn }.

Definition storage_name (env : UploadEnv) (file : File) : string :=
  pretty (Date_now env) +:+ "_" +:+ randomId env +:+ "_" +:+ name file.

Definition candidate (env : UploadEnv) (file : File) (checksum : string) : FileInsert.t :=
  FileInsert.mk (storage_name env file)
    (name file)
    (size file)
    (or_else (Some (type file)) "application/octet-stream")
    checksum
    (Some "api-user")
    (instanceId env).

(** [files.post("/")] *)
Definition files_post (env : UploadEnv) (req : Request) (w : World) : World * Response :=
  match req with
  | Unreadable => (w, json (Body.Error "Failed to upload file") 500)
  | FormData NoField => (w, json (Body.Error "No file provided") 400)
  | FormData (TextField s) =>
      (* a string has no [size], so the guard lets it pass; the digest
         rejects it and the outer [catch] answers *)
      if truthy s then
        match calculateChecksum (Str s) with
        | rejected _ => (w, json (Body.Error "Failed to upload file") 500)
        | resolved _ => (w, json (Body.Error "Failed to upload file") 500)   (* not reached *)
        end
      else (w, json (Body.Error "No file provided") 400)
  | FormData (FileField file) =>
      if maxSize <? size file then
        (w, json (Body.Error "File too large (max 100MB)") 413)
      else
        match calculateChecksum (FileObject file) with
        | rejected _ => (w, json (Body.Error "Failed to upload file") 500)
        | resolved checksum =>
            let w := emit (Hashed (content file)) w in
            let filename := storage_name env file in
            let filepath := "./uploads/" +:+ filename in
            let '(db, fileRecord) :=
              insertFile (insert_conn env) (gen_random_uuid env) (NOW env) (meanwhile env)
                (files w) (candidate env file checksum) in
            let w := emit (Sql "insertFile") (set_files db w) in
            match fileRecord with
            | None =>
                (w, json (Body.Error "Failed to save file metadata or duplicate detected") 409)
            | Some fileRecord =>
                if write_ok env then
                  let w := emit (FsWrite filepath)
                             (set_uploads (<[filepath := content file]> (uploads w)) w) in
                  let w := emit (Sql "getStorageStats") w in
                  (w, json (Body.Uploaded
                              (Body.mkUpload "File uploaded successfully"
                                 (FileRecord.id fileRecord) (name file) (size file)
                                 (type file) checksum
                                 (FileRecord.uploaded_at fileRecord) None)) 201)
                else
                  let w := emit (FsWrite filepath) w in
                  let '(db, _) := deleteFile (compensate_conn env) (files w) (name file) in
                  let w := emit (Sql "deleteFile") (set_files db w) in
                  (w, json (Body.Error "Failed to save file to disk") 500)
            end
        end
  end.

Record DeleteEnv := mkDeleteEnv {
  lookup_conn : Pg.Conn;
  delete_conn : Pg.Conn;
  rm_ok : bool }.                   (* the spawned [rm] removes the file *)

(** [files.delete("/:filename")] *)
Definition files_delete (env : DeleteEnv) (requestedFilename : string) (w : World)
    : World * Response :=
  let fileRecord := getFileByOriginalName (lookup_conn env) (files w) requestedFilename in
  let w := emit (Sql "getFileByOriginalName") w in
  match fileRecord with
  | None => (w, json (Body.Error "File not found") 404)
  | Some fileRecord =>
      let filepath := "./uploads/" +:+ FileRecord.filename fileRecord in
      let '(db, deleted) := deleteFile (delete_conn env) (files w) requestedFilename in
      let w := emit (Sql "deleteFile") (set_files db w) in
      if negb deleted then
        (w, json (Body.Error "Failed to delete file metadata") 500)
      else
        let w := emit (FsRemove filepath)
                   (if rm_ok env then set_uploads (delete filepath (uploads w)) w else w) in
        let w := emit (Sql "getStorageStats") w in
        (w, json (Body.Deleted "File deleted successfully" requestedFilename) 200)
  end.

Definition hit (r : FileRecord.t) : Body.Hit :=
  Body.mkHit (FileRecord.id r) (FileRecord.original_name r) (FileRecord.size r)
    (FileRecord.mime_type r) (FileRecord.uploaded_at r) (FileRecord.uploaded_instance r).

(** [files.get("/search")] *)
Definition files_get_search (conn : Pg.Conn) (q : option string) (w : World)
    : World * Response :=
  match q with
  | Some query =>
      if truthy query then
        let files := searchFiles conn (files w) query None in
        (emit (Sql "searchFiles") w,
         json (Body.Search (hit <$> files) (length files) query) 200)
      else (w, json (Body.Error "Search query required") 400)
  | None => (w, json (Body.Error "Search query required") 400)
  end.


(** *** services/database.ts: lookups, listings and statistics *)

(** A number as [parseInt] yields it: an integer, or NaN. *)
Inductive Number := NaN | Int (z : Z).

(** A number bound to LIMIT or OFFSET. *)
Definition bound (n : Number) : option nat :=
  match n with
  | NaN => None
  | Int z => Pg.row_count z
  end.

Definition stored_as (filename : string) (r : FileRecord.t) : Prop :=
  FileRecord.filename r = filename.

#[global] Instance stored_as_dec f r : Decision (stored_as f r).
Proof. unfold stored_as. apply _. Defined.

Definition getFileByFilename (conn : Pg.Conn) (db : Table) (filename : string)
    : option FileRecord.t :=
  match conn with
  | Pg.Down => None
  | Pg.Up => head (filter (stored_as filename) db)
  end.

(** [getAllFiles(limit = 1000, offset = 0)]; a statement that fails
    lands in the [catch], which returns the empty array. *)
Definition getAllFiles (conn : Pg.Conn) (db : Table) (limit offset : option Number) : Table :=
  let limit := default (Int 1000) limit in
  let offset := default (Int 0) offset in
  match conn, bound limit, bound offset with
  | Pg.Up, Some limit, Some offset =>
      take limit (drop offset (Pg.order_by_uploaded_at_desc db))
  | _, _, _ => []
  end.

(** [getRecentFiles(limit = 10)] *)
Definition getRecentFiles (conn : Pg.Conn) (db : Table) (limit : option Number) : Table :=
  let limit := default (Int 10) limit in
  match conn, bound limit with
  | Pg.Up, Some limit => take limit (Pg.order_by_uploaded_at_desc db)
  | _, _ => []
  end.


(** [getStorageStats]: null when a query fails. *)
Definition getStorageStats (conn : Pg.Conn) (db : Table) : option Stats.t :=
  match conn with
  | Pg.Down => None
  | Pg.Up =>
      let instanceStats := Pg.group_by_instance db in
      Some (Stats.mk
              (Pg.count db)
              (default 0 (Pg.sum_size db))
              (default (QArith_base.Qmake 0 1) (Pg.avg_size db))
              (Pg.max_uploaded_at db)
              (Pg.min_uploaded_at db)
              (instance_distribution instanceStats))
  end.

(** *** routes/files.ts: the read routes *)

Module Listing.
Record Item := mkItem {
  id : string;
  filename : string;
  size : Z;
  type : string;
  uploadedAt : Z;
  uploadedBy : string;
  instance : string;
  checksum : string }.

Record t := mk {
  files : list Item;
  count : nat;
  totalSize : Z;
  limit : Number;
  offset : Number }.
End Listing.

Definition item (file : FileRecord.t) : Listing.Item :=
  Listing.mkItem (FileRecord.id file) (FileRecord.original_name file) (FileRecord.size file)
    (FileRecord.mime_type file) (FileRecord.uploaded_at file) (FileRecord.uploaded_by file)
    (FileRecord.uploaded_instance file) (FileRecord.checksum file).

(** What the read routes take from outside: the builtin [parseInt] and
    the state of the connection. *)
Record ReadEnv := mkReadEnv {
  parseInt : string → Number;
  read_conn : Pg.Conn }.

(** [files.get("/")]; [limit] and [offset] are the query parameters.
    Nothing in the [try] throws, [getAllFiles] having a [catch] of its
    own, so the 500 of the route is not reached; likewise below. *)
Definition files_get (env : ReadEnv) (limit offset : option string) (w : World)
    : World * Reply Listing.t :=
  let limit := parseInt env (or_else limit "100") in
  let offset := parseInt env (or_else offset "0") in
  let files := getAllFiles (read_conn env) (files w) (Some limit) (Some offset) in
  let totalSize := foldl (λ sum file, sum + FileRecord.size file) 0 files in
  (emit (Sql "getAllFiles") w,
   Sent (Listing.mk (item <$> files) (length files) totalSize limit offset) 200).

(** [files.get("/recent")]: the files and their count. *)
Definition files_get_recent (env : ReadEnv) (limit : option string) (w : World)
    : World * Reply (list Body.Hit * nat) :=
  let limit := parseInt env (or_else limit "10") in
  let files := getRecentFiles (read_conn env) (files w) (Some limit) in
  (emit (Sql "getRecentFiles") w, Sent (hit <$> files, length files) 200).

(** [files.get("/stats")]: the statistics, or JSON null. *)
Definition files_get_stats (conn : Pg.Conn) (w : World) : World * Reply (option Stats.t) :=
  (emit (Sql "getStorageStats") w, Sent (getStorageStats conn (files w)) 200).

(** [files.get("/:filename")] *)
Definition files_get_file (conn : Pg.Conn) (requestedFilename : string) (w : World)
    : World * Reply Download :=
  let fileRecord := getFileByOriginalName conn (files w) requestedFilename in
  let w := emit (Sql "getFileByOriginalName") w in
  match fileRecord with
  | None => (w, Failed "File not found" 404)
  | Some fileRecord =>
      let filepath := "./uploads/" +:+ FileRecord.filename fileRecord in
      match uploads w !! filepath with
      | None => (w, Failed "File not found on disk" 404)
      | Some file =>
          (w, Sent (mkDownload
                      (FileRecord.mime_type fileRecord)
                      ("attachment; filename=" +:+ String quote (FileRecord.original_name fileRecord)
                         +:+ String quote EmptyString)
                      (pretty (FileRecord.size fileRecord))
                      (FileRecord.id fileRecord)
                      (FileRecord.checksum fileRecord)
                      (FileRecord.uploaded_at fileRecord)
                      (FileRecord.uploaded_instance fileRecord)
                      file) 200)
      end
  end.

End ExampleApi.

(* ===================================================================== *)
(** ** ci4-file-api: the CodeIgniter service                             *)
(* ===================================================================== *)

Module Ci4.

(** The [$fileData] array [create] builds. *)
Record FileData := mkFileData {
  filename : string;
  original_name : string;
  size : Z;
  mime_type : string;
  checksum : string;
  uploaded_by : string;
  uploaded_instance : string;
  uploaded_at : Z }.

(** *** Services/ChecksumService.php: hash_file('sha256', path) *)
Definition calculate (contents : Bytes) : string :=
  hex_of_bytes (SHA256.digest contents).

(** PHP truthiness of a string: [""] and ["0"] are falsy. *)
Definition php_truthy (s : string) : bool :=
  negb (String.eqb s "" || String.eqb s "0").

(** *** Models/FileModel.php *)

(** The [required] rule: the value is not the empty string. *)
Definition required (s : string) : bool := negb (String.eqb s "").

Definition max_length (n : nat) (s : string) : bool :=
  (String.length s <=? n)%nat.

(** [$validationRules], evaluated by [insert] before the statement. *)
Definition validate (db : Table) (data : FileData) : bool :=
  required (filename data) && max_length 255 (filename data)
    && bool_decide (filename data ∉ FileRecord.filename <$> db)
  && required (original_name data) && max_length 255 (original_name data)
  && (0 <? size data)
  && required (mime_type data) && max_length 100 (mime_type data)
  && required (checksum data) && max_length 64 (checksum data)
  && required (uploaded_instance data) && max_length 50 (uploaded_instance data).

(** The row the model inserts; [$useTimestamps] fills created_at and
    updated_at. *)
Definition new_row (uuid : string) (now : Z) (data : FileData) : FileRecord.t :=
  FileRecord.mk uuid (filename data) (original_name data) (size data)
    (mime_type data) (checksum data) (uploaded_at data) (uploaded_by data)
    (uploaded_instance data) now now.

(** [find($id)] *)
Definition find (db : Table) (id : string) : option FileRecord.t :=
  head (filter (λ r, FileRecord.id r = id) db).

(** [insertWithDuplicateCheck]; [meanwhile] as for the Bun service. *)
Definition insertWithDuplicateCheck (uuid : string) (now : Z) (meanwhile : Table)
    (db : Table) (data : FileData) : Table * option FileRecord.t :=
  let existing := head (filter (same_content (checksum data) (size data)) db) in
  match existing with
  | Some existing => (db ++ meanwhile, Some existing)
  | None =>
      if negb (validate (db ++ meanwhile) data) then (db ++ meanwhile, None)
      else
        match Pg.insert (db ++ meanwhile) (new_row uuid now data) with
        | inl _ => (db ++ meanwhile, None)
        | inr db' => (db', find db' uuid)
        end
  end.

Definition findByOriginalName (db : Table) (originalName : string) : option FileRecord.t :=
  head (Pg.order_by_uploaded_at_desc (filter (named originalName) db)).

(** [$this->where('original_name', $originalName)->delete()] *)
Definition deleteByOriginalName (db : Table) (originalName : string) : Table * bool :=
  (filter (λ r, ¬ named originalName r) db, true).

(** [escapeLikeString]: the wildcards and the escape character itself
    are prefixed with [!]. *)
Definition escapeLikeString (q : list ascii) : list ascii :=
  q ≫= λ c,
    if Ascii.eqb c "%"%char || Ascii.eqb c "_"%char || Ascii.eqb c "!"%char
    then ["!"%char; c] else [c].

(** [LOWER(column) LIKE '%query%' ESCAPE '!'] *)
Definition like_both (column query : string) : bool :=
  Pg.like "!"%char
    (["%"%char] ++ escapeLikeString (list_ascii_of_string query) ++ ["%"%char])
    (list_ascii_of_string column).

Definition search_hit (query : string) (r : FileRecord.t) : bool :=
  like_both (FileRecord.original_name r) query || like_both (FileRecord.mime_type r) query.

(** [searchFiles($query, $limit = 50)] *)
Definition searchFiles (db : Table) (query : string) (limit : option nat) : Table :=
  take (default 50%nat limit)
    (Pg.order_by_uploaded_at_desc (List.filter (search_hit query) db)).

(** *** Controllers/FileController.php *)

Definition MAX_FILE_SIZE : Z := 100 * 1024 * 1024.

(** The uploaded file as the framework presents it. *)
Record UploadedFile := mkUploadedFile {
  getClientName : string;
  getClientMimeType : string;
  getSize : Z;
  contents : Bytes }.

Record CreateEnv := mkCreateEnv {
  time : N;                         (* time() *)
  randomId : string;                (* substr(md5(uniqid()), 0, 8) *)
  instanceId : string;
  date : Z;                         (* date('Y-m-d H:i:s') *)
  gen_random_uuid : string;
  NOW : Z;
  meanwhile : Table;
  uploadDir : string;               (* WRITEPATH . 'uploads/' *)
  move_ok : bool }.                 (* $file->move(...) succeeds *)

Definition storage_name (env : CreateEnv) (file : UploadedFile) : string :=
  pretty (time env) +:+ "_" +:+ randomId env +:+ "_" +:+ getClientName file.

Definition fileData (env : CreateEnv) (file : UploadedFile) (checksum : string) : FileData :=
  mkFileData (storage_name env file) (getClientName file) (getSize file)
    (if php_truthy (getClientMimeType file) then getClientMimeType file
     else "application/octet-stream")
    checksum "api-user" (instanceId env) (date env).

(** [FileController::create] *)
Definition create (env : CreateEnv) (file : option UploadedFile) (w : World)
    : World * Response :=
  match file with
  | None => (w, json (Body.Error "No file provided") 400)
  | Some file =>
      if MAX_FILE_SIZE <? getSize file then
        (w, json (Body.Error "File too large (max 100MB)") 413)
      else
        let checksum := calculate (contents file) in
        let w := emit (Hashed (contents file)) w in
        let filename := storage_name env file in
        let originalName := getClientName file in
        let '(db, fileRecord) :=
          insertWithDuplicateCheck (gen_random_uuid env) (NOW env) (meanwhile env)
            (files w) (fileData env file checksum) in
        let w := emit (Sql "insertWithDuplicateCheck") (set_files db w) in
        match fileRecord with
        | None =>
            (w, json (Body.Error "Failed to save file metadata or duplicate detected") 409)
        | Some fileRecord =>
            let isDuplicate := negb (String.eqb (FileRecord.filename fileRecord) filename) in
            let created (w : World) :=
              (emit (Sql "getStorageStats") w,
               json (Body.Uploaded
                       (Body.mkUpload
                          (if isDuplicate then "Duplicate file detected"
                           else "File uploaded successfully")
                          (FileRecord.id fileRecord) originalName
                          (FileRecord.size fileRecord) (FileRecord.mime_type fileRecord)
                          checksum (FileRecord.uploaded_at fileRecord)
                          (Some isDuplicate))) 201) in
            if isDuplicate then created w
            else
              let targetPath := uploadDir env +:+ filename in
              if move_ok env then
                created (emit (FsWrite targetPath)
                           (set_uploads (<[targetPath := contents file]> (uploads w)) w))
              else
                let w := emit (FsWrite targetPath) w in
                let '(db, _) := deleteByOriginalName (files w) originalName in
                let w := emit (Sql "deleteByOriginalName") (set_files db w) in
                (w, json (Body.Error "Failed to save file to disk") 500)
        end
  end.

(** [FileController::delete]; [unlink_ok]: the suppressed [@unlink]
    removes the file. *)
Definition delete (dir : string) (unlink_ok : bool) (filename : option string) (w : World)
    : World * Response :=
  match filename with
  | None => (w, json (Body.Error "Filename required") 400)
  | Some filename =>
      if negb (php_truthy filename) then (w, json (Body.Error "Filename required") 400)
      else
        let fileRecord := findByOriginalName (files w) filename in
        let w := emit (Sql "findByOriginalName") w in
        match fileRecord with
        | None => (w, json (Body.Error "File not found") 404)
        | Some fileRecord =>
            let filepath := dir +:+ FileRecord.filename fileRecord in
            let '(db, deleted) := deleteByOriginalName (files w) filename in
            let w := emit (Sql "deleteByOriginalName") (set_files db w) in
            if negb deleted then
              (w, json (Body.Error "Failed to delete file metadata") 500)
            else
              let w :=
                match uploads w !! filepath with
                | Some _ =>
                    emit (FsRemove filepath)
                      (if unlink_ok then set_uploads (base.delete filepath (uploads w)) w else w)
                | None => w
                end in
              (emit (Sql "getStorageStats") w,
               json (Body.Deleted "File deleted successfully" filename) 200)
        end
  end.


(** *** The read side of the model and of the controller *)


(** [FileModel::getStorageStats] *)
Definition getStorageStats (db : Table) : Stats.t :=
  let instanceStats := Pg.group_by_instance db in
  Stats.mk (Pg.count db)
    (default 0 (Pg.sum_size db))
    (default (QArith_base.Qmake 0 1) (Pg.avg_size db))
    (Pg.max_uploaded_at db)
    (Pg.min_uploaded_at db)
    (instance_distribution instanceStats).

(** [FileController::search] *)
Definition search (q : option string) (w : World) : World * Response :=
  match q with
  | None => (w, json (Body.Error "Search query required") 400)
  | Some query =>
      if negb (php_truthy query) then (w, json (Body.Error "Search query required") 400)
      else
        let files := searchFiles (files w) query None in
        (emit (Sql "searchFiles") w,
         json (Body.Search
                 ((λ file, Body.mkHit (FileRecord.id file) (FileRecord.original_name file)
                             (FileRecord.size file) (FileRecord.mime_type file)
                             (FileRecord.uploaded_at file) (FileRecord.uploaded_instance file))
                    <$> files)
                 (length files) query) 200)
  end.


(** [FileController::show] *)
Definition show (dir : string) (filename : option string) (w : World)
    : World * Reply Download :=
  match filename with
  | None => (w, Failed "Filename required" 400)
  | Some filename =>
      if negb (php_truthy filename) then (w, Failed "Filename required" 400)
      else
        let fileRecord := findByOriginalName (files w) filename in
        let w := emit (Sql "findByOriginalName") w in
        match fileRecord with
        | None => (w, Failed "File not found" 404)
        | Some fileRecord =>
            let filepath := dir +:+ FileRecord.filename fileRecord in
            match uploads w !! filepath with
            | None => (w, Failed "File not found on disk" 404)
            | Some body =>
                (w, Sent (mkDownload
                            (FileRecord.mime_type fileRecord)
                            ("attachment; filename=" +:+ String quote
                               (FileRecord.original_name fileRecord) +:+ String quote EmptyString)
                            (pretty (FileRecord.size fileRecord))
                            (FileRecord.id fileRecord)
                            (FileRecord.checksum fileRecord)
                            (FileRecord.uploaded_at fileRecord)
                            (FileRecord.uploaded_instance fileRecord)
                            body) 200)
            end
        end
  end.

End Ci4.

(* ===================================================================== *)
(** ** api-test.lua: the load script                                     *)
(* ===================================================================== *)

Module LoadTest.

Record Endpoint := mkEndpoint {
  method : string;
  path : string;
  weight : Z }.

Definition endpoints : list Endpoint :=
  [ mkEndpoint "GET" "/api/files?limit=100&offset=0" 40;
    mkEndpoint "GET" "/api/files/search?q=test" 25;
    mkEndpoint "GET" "/api/files/recent?limit=10" 25;
    mkEndpoint "GET" "/api/files/stats" 8;
    mkEndpoint "POST" "/api/files" 2 ].

Definition search_queries : list string :=
  ["txt"; "pdf"; "image"; "document"; "test"; "data"; "config"].

Definition CRLF : string := String "013"%char (String "010"%char EmptyString).

(** [table.concat(parts, sep)] *)
Fixpoint table_concat (parts : list string) (sep : string) : string :=
  match parts with
  | [] => EmptyString
  | [part] => part
  | part :: rest => part +:+ sep +:+ table_concat rest sep
  end.

(** [create_multipart_body(filename, content)]; [random] is what
    math.random(100000, 999999) yields.  Returns the body and the
    content type. *)
Definition create_multipart_body (random : Z) (filename content : string) : string * string :=
  let boundary := "----WebKitFormBoundary" +:+ pretty random in
  let body_parts :=
    [ "--" +:+ boundary;
      "Content-Disposition: form-data; name=" +:+ String quote "file" +:+ String quote "; filename="
        +:+ String quote filename +:+ String quote EmptyString;
      "Content-Type: text/plain";
      EmptyString;
      content;
      "--" +:+ boundary +:+ "--";
      EmptyString ] in
  let body := table_concat body_parts CRLF in
  let content_type := "multipart/form-data; boundary=" +:+ boundary in
  (body, content_type).

(** The running total of the two loops of [weighted_random]. *)
Definition add_weight (total : Z) (item : Endpoint) : Z := total + weight item.

(** The second loop: the first item at which the running total reaches
    [random_weight]. *)
Fixpoint first_reached (random_weight : QArith_base.Q) (current_weight : Z)
    (items : list Endpoint) : option Endpoint :=
  match items with
  | [] => None
  | item :: rest =>
      let current_weight := add_weight current_weight item in
      if QArith_base.Qle_bool random_weight (QArith_base.inject_Z current_weight)
      then Some item
      else first_reached random_weight current_weight rest
  end.

(** [weighted_random(items)]; [scaled n] is the number
    [math.random() * n].  Without items the result is nil. *)
Definition weighted_random (scaled : Z → QArith_base.Q) (items : list Endpoint)
    : option Endpoint :=
  let total_weight := foldl add_weight 0 items in
  let random_weight := scaled total_weight in
  match first_reached random_weight 0 items with
  | Some item => Some item
  | None => head items
  end.

(** Lua patterns as the script writes them: a character stands for
    itself, and a character followed by [?] may be missing. *)
Inductive Piece :=
| One (c : ascii)
| Optional (c : ascii).

Fixpoint pieces (pattern : list ascii) : list Piece :=
  match pattern with
  | [] => []
  | c :: rest =>
      match rest with
      | "?"%char :: rest' => Optional c :: pieces rest'
      | _ => One c :: pieces rest
      end
  end.

Fixpoint match_here (ps : list Piece) : list ascii → bool :=
  match ps with
  | [] => λ _, true
  | One c :: ps' =>
      λ s, match s with
           | [] => false
           | x :: s' => Ascii.eqb c x && match_here ps' s'
           end
  | Optional c :: ps' =>
      λ s, match s with
           | [] => match_here ps' []
           | x :: s' => (Ascii.eqb c x && match_here ps' s') || match_here ps' s
           end
  end.

Fixpoint match_from (ps : list Piece) (s : list ascii) : bool :=
  match_here ps s
  || match s with
     | [] => false
     | _ :: s' => match_from ps s'
     end.

(** [string.find(s, pattern)] as a condition: whether the pattern
    matches somewhere in [s]. *)
Definition string_find (s pattern : string) : bool :=
  match_from (pieces (list_ascii_of_string pattern)) (list_ascii_of_string s).

(** The random numbers one call of [request] draws. *)
Record Draws := mkDraws {
  scaled : Z → QArith_base.Q;       (* math.random() * total_weight *)
  query : string;                   (* search_queries[math.random(#search_queries)] *)
  limit : Z;                        (* math.random(10, 100) *)
  offset : Z;                       (* math.random(0, 50) *)
  recent_limit : Z;                 (* math.random(5, 50) *)
  upload_file : string * string;    (* upload_files[math.random(#upload_files)] *)
  boundary : Z }.                   (* math.random(100000, 999999) *)

(** The first half of [request]: the method, and the path after the
    three substitutions. *)
Definition target (d : Draws) : option (string * string) :=
  match weighted_random (scaled d) endpoints with
  | None => None
  | Some endpoint =>
      let path := path endpoint in
      let method := method endpoint in
      let path :=
        if string_find path "/search"
        then "/api/files/search?q=" +:+ query d
        else path in
      let path :=
        if string_find path "/api/files?" && negb (string_find path "search")
        then "/api/files?limit=" +:+ pretty (limit d) +:+ "&offset=" +:+ pretty (offset d)
        else path in
      let path :=
        if string_find path "/recent"
        then "/api/files/recent?limit=" +:+ pretty (recent_limit d)
        else path in
      Some (method, path)
  end.

(** [request()]: the complete request. *)
Definition request (d : Draws) : option string :=
  match target d with
  | None => None
  | Some (method, path) =>
      let headers := "Host: localhost:3001" +:+ CRLF in
      let '(body, headers) :=
        if String.eqb method "POST" then
          let '(multipart_body, content_type) :=
            create_multipart_body (boundary d) (upload_file d).1 (upload_file d).2 in
          (Some multipart_body,
           (headers +:+ "Content-Type: " +:+ content_type +:+ CRLF)
             +:+ "Content-Length: " +:+ pretty (String.length multipart_body) +:+ CRLF)
        else (None, headers) in
      let request_line := method +:+ " " +:+ path +:+ " HTTP/1.1" +:+ CRLF in
      let complete_request := request_line +:+ headers +:+ CRLF in
      Some (match body with
            | Some body => complete_request +:+ body
            | None => complete_request
            end)
  end.

End LoadTest.

(* ===================================================================== *)
(** ** Vocabulary of the properties                                      *)
(* ===================================================================== *)

(** A character of [0-9a-f]. *)
Definition lower_hex (c : ascii) : bool :=
  let n := nat_of_ascii c in
  ((48 <=? n) && (n <=? 57) || (97 <=? n) && (n <=? 102))%nat.

(** The two characters one byte contributes to the rendering. *)
Definition hex_pair (b : byte) : string :=
  padStart 2 "0"%char (toString16 (Byte.to_N b)).

(** One byte renders as two characters of [0-9a-f]. *)
Definition hex_pair_ok (b : byte) : bool :=
  match hex_pair b with
  | String hi (String lo EmptyString) => lower_hex hi && lower_hex lo
  | _ => false
  end.

(** Input kinds that can be materialized into bytes: a Buffer, an
    ArrayBuffer, or a Blob (a File is a Blob). *)
Definition materializable (v : ExampleApi.Value) : Prop :=
  match v with
  | ExampleApi.Buffer _ | ExampleApi.ArrayBuffer _
  | ExampleApi.Blob _ _ | ExampleApi.FileObject _ => True
  | _ => False
  end.

(** Newest first. *)
Definition newer_or_equal (a b : FileRecord.t) : Prop :=
  FileRecord.uploaded_at b ≤ FileRecord.uploaded_at a.

(** Rows as the upload handlers leave them: a non-empty id and storage
    key. *)
Definition row_ok (r : FileRecord.t) : Prop :=
  FileRecord.id r ≠ "" ∧ FileRecord.filename r ≠ "".

(** The dedup key of a row. *)
Definition content_key (r : FileRecord.t) : string * Z :=
  (FileRecord.checksum r, FileRecord.size r).

(** Tables the schema and the handlers admit: the (checksum, size) index
    is unique and every row is [row_ok]. *)
Definition table_ok (db : Table) : Prop :=
  NoDup (content_key <$> db) ∧ Forall row_ok db.

(** The upload route on a form whose [file] field is a file. *)
Abbreviation post_file env file w :=
  (ExampleApi.files_post env (ExampleApi.FormData (ExampleApi.FileField file)) w).

(** *** Sample requests and the worlds they lead to *)

Definition sample_row (n : nat) : FileRecord.t :=
  FileRecord.mk (pretty n) ("key_" +:+ pretty n) "notes.txt" 1 "text/plain"
    (pretty n) (Z.of_nat n) "api-user" "app1" (Z.of_nat n) (Z.of_nat n).

Definition fifty_one_rows : Table := sample_row <$> seq 0 51.

Definition empty_world : World := mkWorld [] ∅ [].

(** An upload at [ms] milliseconds that runs alone, with disk and
    database working. *)
Definition env_at (ms : N) (rnd instance uuid : string) : ExampleApi.UploadEnv :=
  ExampleApi.mkUploadEnv ms rnd instance Pg.Up uuid (1000 * Z.of_N ms) [] true Pg.Up.

Definition quiet_upload : ExampleApi.UploadEnv :=
  env_at 1700000000000 "k3x9qa" "app1" "7d0f2c5e-1f8a-4c3b-9a57-0c2d4e6f8a10".

Definition later_upload : ExampleApi.UploadEnv :=
  env_at 1700000000500 "p0o9i8" "app2" "c1d2e3f4-0a1b-4c2d-8e3f-405162738495".

Definition quiet_delete : ExampleApi.DeleteEnv := ExampleApi.mkDeleteEnv Pg.Up Pg.Up true.

Definition huge_file : ExampleApi.File :=
  ExampleApi.mkFile "dump.bin" "application/octet-stream" 104857601 [].

Definition hello_a : ExampleApi.File :=
  ExampleApi.mkFile "a.txt" "text/plain" 5 (bytes_of_string "hello").

(** The same bytes as [hello_a] under another name. *)
Definition hello_b : ExampleApi.File :=
  ExampleApi.mkFile "b.txt" "text/plain" 5 (bytes_of_string "hello").

Definition hello_sha : string :=
  "2cf24dba5fb0a30e26e83b2ac5b9e29e1b161e5c1fa7425e73043362938b9824".

(** The row the first upload of "hello" creates. *)
Definition hello_row : FileRecord.t :=
  FileRecord.mk "7d0f2c5e-1f8a-4c3b-9a57-0c2d4e6f8a10" "1700000000000_k3x9qa_a.txt" "a.txt" 5
    "text/plain" hello_sha 1700000000000000 "api-user" "app1"
    1700000000000000 1700000000000000.

(** The world after "hello" has been uploaded as "a.txt". *)
Definition hello_world : World :=
  (post_file quiet_upload hello_a empty_world).1.

(** The row a concurrent upload of "hello" has just committed, and the
    candidate of the upload that lost the race. *)
Definition winner_row : FileRecord.t :=
  FileRecord.mk "3b1f8e7a-52c4-4d09-8f6e-a1b2c3d4e5f6" "1700000000000_zq81mc_a.txt" "a.txt" 5
    "text/plain" hello_sha 1700000000000000 "api-user" "app2"
    1700000000000000 1700000000000000.

Definition loser_candidate : FileInsert.t :=
  FileInsert.mk "1700000000000_k3x9qa_a.txt" "a.txt" 5 "text/plain" hello_sha
    (Some "api-user") "app1".

Definition racing_upload : ExampleApi.UploadEnv :=
  ExampleApi.mkUploadEnv 1700000000000 "k3x9qa" "app1" Pg.Up
    "7d0f2c5e-1f8a-4c3b-9a57-0c2d4e6f8a10" 1700000000000001 [winner_row] true Pg.Up.

(** An upload whose disk write fails; the second one also loses the
    database when it tries to take the row back. *)
Definition disk_fails : ExampleApi.UploadEnv :=
  ExampleApi.mkUploadEnv 1700000000000 "k3x9qa" "app1" Pg.Up
    "7d0f2c5e-1f8a-4c3b-9a57-0c2d4e6f8a10" 1700000000000000 [] false Pg.Up.

Definition disk_and_compensation_fail : ExampleApi.UploadEnv :=
  ExampleApi.mkUploadEnv 1700000000000 "k3x9qa" "app1" Pg.Up
    "7d0f2c5e-1f8a-4c3b-9a57-0c2d4e6f8a10" 1700000000000000 [] false Pg.Down.

(** Two uploads named "a.txt" with different contents, and a bystander
    "b.txt": the files, the rows their uploads create, and the worlds
    after them. *)
Definition a_v1 : ExampleApi.File :=
  ExampleApi.mkFile "a.txt" "text/plain" 2 (bytes_of_string "v1").

Definition a_v22 : ExampleApi.File :=
  ExampleApi.mkFile "a.txt" "text/plain" 3 (bytes_of_string "v22").

Definition b_file : ExampleApi.File :=
  ExampleApi.mkFile "b.txt" "text/plain" 4 (bytes_of_string "bbbb").

Definition a_old : FileRecord.t :=
  FileRecord.mk "0e5a1b2c-0000-4000-8000-000000000001" "1699999990000_aaaaaa_a.txt" "a.txt" 2
    "text/plain" "3bfc269594ef649228e9a74bab00f042efc91d5acc6fbee31a382e80d42388fe"
    1699999990000000 "api-user" "app1" 1699999990000000 1699999990000000.

Definition a_new : FileRecord.t :=
  FileRecord.mk "0e5a1b2c-0000-4000-8000-000000000002" "1699999995000_bbbbbb_a.txt" "a.txt" 3
    "text/plain" "0b8fc9580cdd4e33bc5c14db43f6dbb412e76e2b843bfac07f91b16cd6d4f5d0"
    1699999995000000 "api-user" "app2" 1699999995000000 1699999995000000.

Definition b_row : FileRecord.t :=
  FileRecord.mk "0e5a1b2c-0000-4000-8000-000000000003" "1699999997000_cccccc_b.txt" "b.txt" 4
    "text/plain" "81cc5b17018674b401b42f35ba07bb79e211239c23bffe658da1577e3e646877"
    1699999997000000 "api-user" "app1" 1699999997000000 1699999997000000.

Definition upload_a_v1 : World → World := λ w,
  (ExampleApi.files_post
     (env_at 1699999990000 "aaaaaa" "app1" "0e5a1b2c-0000-4000-8000-000000000001")
     (ExampleApi.FormData (ExampleApi.FileField a_v1)) w).1.

Definition upload_a_v22 : World → World := λ w,
  (ExampleApi.files_post
     (env_at 1699999995000 "bbbbbb" "app2" "0e5a1b2c-0000-4000-8000-000000000002")
     (ExampleApi.FormData (ExampleApi.FileField a_v22)) w).1.

Definition upload_b : World → World := λ w,
  (ExampleApi.files_post
     (env_at 1699999997000 "cccccc" "app1" "0e5a1b2c-0000-4000-8000-000000000003")
     (ExampleApi.FormData (ExampleApi.FileField b_file)) w).1.

Definition two_a_world : World := upload_b (upload_a_v22 (upload_a_v1 empty_world)).

Definition old_a_world : World := upload_b (upload_a_v1 empty_world).

(** Worlds the routes reach from the empty one when requests run one
    after the other and every generated id is non-empty. *)
Inductive served : World → Prop :=
| served_empty : served empty_world
| served_upload env req w :
    served w → ExampleApi.meanwhile env = [] → ExampleApi.gen_random_uuid env ≠ "" →
    served (ExampleApi.files_post env req w).1
| served_remove env name w :
    served w → served (ExampleApi.files_delete env name w).1
| served_search conn q w :
    served w → served (ExampleApi.files_get_search conn q w).1.

(** *** Vocabulary of the further properties *)

(** The value of a character of [0-9a-f]. *)
Definition hex_digit (c : ascii) : N :=
  let n := N_of_ascii c in
  if (n <? 58)%N then (n - 48)%N else (n - 87)%N.

(** Reading a rendering back, two characters to a byte. *)
Fixpoint unhex (s : string) : Bytes :=
  match s with
  | String hi (String lo s') =>
      default Byte.x00 (Byte.of_N (16 * hex_digit hi + hex_digit lo)) :: unhex s'
  | _ => []
  end.









(** The path of the blob a row of the Bun service points to. *)
Definition blob_path (r : FileRecord.t) : string :=
  "./uploads/" +:+ FileRecord.filename r.

(** Every blob a row points to has the digest the row records. *)
Definition blobs_match (w : World) : Prop :=
  ∀ r bytes, r ∈ files w → uploads w !! blob_path r = Some bytes →
    FileRecord.checksum r = hex_of_bytes (SHA256.digest bytes).

(** [parseInt] on the strings the samples use. *)
Definition sample_parseInt (s : string) : ExampleApi.Number :=
  if String.eqb s "100" then ExampleApi.Int 100
  else if String.eqb s "10" then ExampleApi.Int 10
  else if String.eqb s "2" then ExampleApi.Int 2
  else if String.eqb s "0" then ExampleApi.Int 0
  else if String.eqb s "-1" then ExampleApi.Int (-1)
  else ExampleApi.NaN.

Definition sample_reads : ExampleApi.ReadEnv := ExampleApi.mkReadEnv sample_parseInt Pg.Up.

(** Storage keys and ids are unique, as the primary key and the UNIQUE
    constraint on [filename] demand. *)
Definition keys_unique (db : Table) : Prop :=
  NoDup (FileRecord.filename <$> db) ∧ NoDup (FileRecord.id <$> db).

(** A CodeIgniter upload that runs alone, and a file a client calls
    "0". *)
Definition ci4_quiet : Ci4.CreateEnv :=
  Ci4.mkCreateEnv 1700000000 "9f8e7d6c" "ci4-1" 1700000000000000
    "5a4b3c2d-0000-4000-8000-00000000000a" 1700000000000000 [] "/var/www/writable/uploads/" true.


(** "hello" stored by the CodeIgniter service as "a.txt", and the same
    bytes arriving later as "b.txt". *)
Definition ci4_hello_a : Ci4.UploadedFile :=
  Ci4.mkUploadedFile "a.txt" "text/plain" 5 (bytes_of_string "hello").

Definition ci4_hello_b : Ci4.UploadedFile :=
  Ci4.mkUploadedFile "b.txt" "text/plain" 5 (bytes_of_string "hello").

Definition ci4_later : Ci4.CreateEnv :=
  Ci4.mkCreateEnv 1700000060 "0a1b2c3d" "ci4-2" 1700000060000000
    "5a4b3c2d-0000-4000-8000-00000000000b" 1700000060000000 [] "/var/www/writable/uploads/" true.

Definition ci4_hello_world : World := (Ci4.create ci4_quiet (Some ci4_hello_a) empty_world).1.

(** The row that upload creates. *)
Definition ci4_hello_row : FileRecord.t :=
  FileRecord.mk "5a4b3c2d-0000-4000-8000-00000000000a" "1700000000_9f8e7d6c_a.txt" "a.txt" 5
    "text/plain" hello_sha 1700000000000000 "api-user" "ci4-1"
    1700000000000000 1700000000000000.


(** The running total of the weights of the first [n] items, as the
    loops of [weighted_random] compute it. *)
Definition weight_up_to (n : nat) (items : list LoadTest.Endpoint) : QArith_base.Q :=
  QArith_base.inject_Z (foldl LoadTest.add_weight 0 (take n items)).

(** Draws that pick the ends of the endpoint table. *)
Definition draws_at (percent : Z) : LoadTest.Draws :=
  LoadTest.mkDraws (λ total, QArith_base.Qmake (percent * total) 100) "pdf" 25 5 7
    ("test1.txt", "Hello World Test File") 123456.

(* ===================================================================== *)
(** * Properties                                                         *)
(* ===================================================================== *)

Arguments SHA256.digest : simpl never.
Arguments hex_of_bytes : simpl never.

(** Closed goals: split the conjunctions, then evaluate each part. *)
Ltac evaluate :=
  repeat match goal with |- _ ∧ _ => split end;
  first [ apply (bool_decide_unpack _); vm_compute; exact I
        | vm_compute; first [reflexivity | discriminate] ].

(** ** The digest and its hexadecimal rendering *)

(** NIST test vectors (FIPS 180-4 examples and the empty message). *)
Example sha256_abc :
  hex_of_bytes (SHA256.digest (bytes_of_string "abc"))
  = "ba7816bf8f01cfea414140de5dae2223b00361a396177a9cb410ff61f20015ad".
Proof. vm_compute. reflexivity. Qed.

Example sha256_empty :
  hex_of_bytes (SHA256.digest [])
  = "e3b0c44298fc1c149afbf4c8996fb92427ae41e4649b934ca495991b7852b855".
Proof. vm_compute. reflexivity. Qed.

Example sha256_two_blocks :
  hex_of_bytes (SHA256.digest
    (bytes_of_string "abcdbcdecdefdefgefghfghighijhijkijkljklmklmnlmnomnopnopq"))
  = "248d6a61d20638b8e5c026930c3e6039a33ce45964ff2167f6ecedd419db06c1".
Proof. vm_compute. reflexivity. Qed.

Lemma be_bytes_length n z : length (SHA256.be_bytes n z) = n.
Proof.
  unfold SHA256.be_bytes.
  rewrite length_map, length_rev, length_seq. reflexivity.
Qed.

Lemma digest_length msg : length (SHA256.digest msg) = 32%nat.
Proof.
  unfold SHA256.digest. cbv zeta.
  rewrite !length_app, !be_bytes_length. reflexivity.
Qed.

Lemma hex_pair_ok_all b : hex_pair_ok b = true.
Proof. destruct b; reflexivity. Qed.

Lemma hex_pair_shape b :
  ∃ hi lo, hex_pair b = String hi (String lo EmptyString)
           ∧ lower_hex hi = true ∧ lower_hex lo = true.
Proof.
  pose proof (hex_pair_ok_all b) as H. unfold hex_pair_ok in H.
  destruct (hex_pair b) as [|hi [|lo [|? ?]]]; try discriminate H.
  apply andb_true_iff in H. eauto.
Qed.

Lemma append_cons c s t : String c s +:+ t = String c (s +:+ t).
Proof. reflexivity. Qed.

Lemma append_nil_l t : "" +:+ t = t.
Proof. reflexivity. Qed.

Lemma append_nil_r s : s +:+ "" = s.
Proof. induction s as [|c s IH]; [reflexivity|]. by rewrite append_cons, IH. Qed.

Lemma concat_empty_cons (x : string) (xs : list string) :
  String.concat "" (x :: xs) = x +:+ String.concat "" xs.
Proof.
  destruct xs as [|y ys]; [|reflexivity].
  cbn [String.concat]. by rewrite append_nil_r.
Qed.

Lemma hex_of_bytes_cons b bs :
  hex_of_bytes (b :: bs) = hex_pair b +:+ hex_of_bytes bs.
Proof. unfold hex_of_bytes. simpl List.map. apply concat_empty_cons. Qed.

Lemma hex_of_bytes_length bs :
  String.length (hex_of_bytes bs) = (2 * length bs)%nat.
Proof.
  induction bs as [|b bs IH]; [reflexivity|].
  rewrite hex_of_bytes_cons.
  destruct (hex_pair_shape b) as (hi & lo & -> & _ & _).
  rewrite !append_cons, append_nil_l. cbn [String.length]. rewrite IH. simpl. lia.
Qed.

Lemma hex_of_bytes_lower bs :
  Forall (λ c, lower_hex c = true) (list_ascii_of_string (hex_of_bytes bs)).
Proof.
  induction bs as [|b bs IH]; [constructor|].
  rewrite hex_of_bytes_cons.
  destruct (hex_pair_shape b) as (hi & lo & -> & Hhi & Hlo).
  rewrite !append_cons, append_nil_l. cbn [list_ascii_of_string].
  constructor; [exact Hhi|]. constructor; [exact Hlo|]. exact IH.
Qed.

(** ** utils/checksum.ts *)

Lemma calculateChecksum_File f :
  ExampleApi.calculateChecksum (ExampleApi.FileObject f)
  = ExampleApi.resolved (hex_of_bytes (SHA256.digest (ExampleApi.content f))).
Proof. reflexivity. Qed.

(** C9.  [calculateChecksum] resolves, for a Buffer, an ArrayBuffer or a
    Blob, to the SHA-256 of the bytes behind it written as 64 lowercase
    hexadecimal characters; for every other kind of input it rejects with
    the unsupported-input TypeError; it rejects exactly when the input is
    not one of the three kinds. *)
Theorem calculateChecksum_spec (v : ExampleApi.Value) :
  let hex := hex_of_bytes (SHA256.digest (ExampleApi.bytes_of v)) in
  (materializable v →
     ExampleApi.calculateChecksum v = ExampleApi.resolved hex
     ∧ String.length hex = 64%nat
     ∧ Forall (λ c, lower_hex c = true) (list_ascii_of_string hex))
  ∧ (¬ materializable v →
     ExampleApi.calculateChecksum v
     = ExampleApi.rejected
         (ExampleApi.TypeError "Unsupported file type for checksum calculation"))
  ∧ ((∃ e, ExampleApi.calculateChecksum v = ExampleApi.rejected e) ↔ ¬ materializable v).
Proof.
  intros hex. split; [|split].
  - intros Hm. split; [|split].
    + destruct v; simpl in Hm; try contradiction; reflexivity.
    + unfold hex. rewrite hex_of_bytes_length, digest_length. reflexivity.
    + apply hex_of_bytes_lower.
  - intros Hm. destruct v; simpl in Hm; try (exfalso; apply Hm; exact I); reflexivity.
  - split.
    + intros [e He] Hm. destruct v; simpl in Hm; try contradiction; discriminate He.
    + intros Hm. eexists.
      destruct v; simpl in Hm; try (exfalso; apply Hm; exact I); reflexivity.
Qed.

Lemma calculateChecksum_spec_witness :
  materializable (ExampleApi.Blob "text/plain" (bytes_of_string "abc"))
  ∧ ExampleApi.calculateChecksum (ExampleApi.Blob "text/plain" (bytes_of_string "abc"))
    = ExampleApi.resolved
        "ba7816bf8f01cfea414140de5dae2223b00361a396177a9cb410ff61f20015ad"
  ∧ ¬ materializable (ExampleApi.Str "abc")
  ∧ ExampleApi.calculateChecksum (ExampleApi.Str "abc")
    = ExampleApi.rejected
        (ExampleApi.TypeError "Unsupported file type for checksum calculation").
Proof.
  split; [exact I|]. split.
  - destruct (calculateChecksum_spec (ExampleApi.Blob "text/plain" (bytes_of_string "abc")))
      as [H _].
    destruct (H I) as [-> _]. vm_compute. reflexivity.
  - split; [intros H; exact H|].
    destruct (calculateChecksum_spec (ExampleApi.Str "abc")) as (_ & H & _).
    apply H. intros H'; exact H'.
Defined.

(** ** ORDER BY uploaded_at DESC *)

Section OrderBy.

Implicit Types (r x : FileRecord.t) (l : Table).

Lemma insert_desc_perm r l : Pg.insert_desc r l ≡ₚ r :: l.
Proof.
  induction l as [|x l IH]; simpl; [reflexivity|].
  destruct (FileRecord.uploaded_at x <=? FileRecord.uploaded_at r); [reflexivity|].
  rewrite IH. apply Permutation_swap.
Qed.

Lemma order_by_perm l : Pg.order_by_uploaded_at_desc l ≡ₚ l.
Proof.
  induction l as [|x l IH]; simpl; [reflexivity|].
  rewrite insert_desc_perm. by rewrite IH.
Qed.

Lemma order_by_elem_of r l : r ∈ Pg.order_by_uploaded_at_desc l ↔ r ∈ l.
Proof. by rewrite order_by_perm. Qed.

Lemma order_by_length l : length (Pg.order_by_uploaded_at_desc l) = length l.
Proof. by rewrite order_by_perm. Qed.

Lemma order_by_nil l : l = [] → Pg.order_by_uploaded_at_desc l = [].
Proof. by intros ->. Qed.

Lemma insert_desc_sorted r l :
  StronglySorted newer_or_equal l → StronglySorted newer_or_equal (Pg.insert_desc r l).
Proof.
  induction 1 as [|x l Hl IH Hx]; simpl.
  - repeat constructor.
  - destruct (Z.leb_spec (FileRecord.uploaded_at x) (FileRecord.uploaded_at r)) as [Hle|Hlt].
    + constructor; [by constructor|].
      constructor; [exact Hle|].
      eapply Forall_impl; [exact Hx|].
      unfold newer_or_equal. intros y Hy. lia.
    + constructor; [exact IH|].
      rewrite insert_desc_perm. constructor; [|exact Hx].
      unfold newer_or_equal. lia.
Qed.

Lemma order_by_sorted l : StronglySorted newer_or_equal (Pg.order_by_uploaded_at_desc l).
Proof.
  induction l as [|x l IH]; simpl; [constructor|].
  by apply insert_desc_sorted.
Qed.

(** The first row of the ordering is a newest one. *)
Lemma order_by_head_newest l r :
  head (Pg.order_by_uploaded_at_desc l) = Some r →
  r ∈ l ∧ ∀ x, x ∈ l → FileRecord.uploaded_at x ≤ FileRecord.uploaded_at r.
Proof.
  intros Hh. pose proof (order_by_sorted l) as Hs.
  destruct (Pg.order_by_uploaded_at_desc l) as [|y s] eqn:E; [discriminate|].
  injection Hh as ->. split.
  - apply order_by_elem_of. rewrite E. left.
  - intros x Hx. apply (proj2 (order_by_elem_of _ _)) in Hx. rewrite E in Hx.
    apply StronglySorted_inv in Hs as [_ Hall].
    apply elem_of_cons in Hx as [->|Hx]; [lia|].
    rewrite Forall_forall in Hall. by apply Hall.
Qed.

(** What LIMIT cuts off is not newer than what it keeps. *)
Lemma sorted_take_drop n l x y :
  StronglySorted newer_or_equal l → x ∈ take n l → y ∈ drop n l → newer_or_equal x y.
Proof.
  intros Hs. revert n. induction Hs as [|z l Hl IH Hz]; intros n Hx Hy.
  - rewrite take_nil in Hx. by apply elem_of_nil in Hx.
  - destruct n as [|n]; simpl in *; [by apply elem_of_nil in Hx|].
    apply elem_of_cons in Hx as [->|Hx].
    + rewrite Forall_forall in Hz. apply Hz.
      eapply subseteq_drop; exact Hy.
    + by eapply IH.
Qed.

End OrderBy.

(** ** Search *)

Lemma searchFiles_down db query limit : ExampleApi.searchFiles Pg.Down db query limit = [].
Proof. reflexivity. Qed.

(** C10.  Called as the route calls it, [searchFiles] returns at most 50
    rows: the 50 newest matching rows in descending order of uploaded_at.
    Every row returned matches the query; a matching row that is left out
    is not newer than any row returned; with 50 or more matching rows
    exactly 50 come back; and the route reports that list and its length.
    When the query cannot be run the result is empty. *)
Theorem searchFiles_at_most_50 (db : Table) (query : string) :
  let matching := List.filter (ExampleApi.search_hit query) db in
  let found := ExampleApi.searchFiles Pg.Up db query None in
  found = take 50 (Pg.order_by_uploaded_at_desc matching)
  ∧ (length found ≤ 50)%nat
  ∧ length found = Nat.min 50 (length matching)
  ∧ StronglySorted newer_or_equal found
  ∧ (∀ r, r ∈ found → r ∈ db ∧ ExampleApi.search_hit query r = true)
  ∧ (∀ r r', r ∈ matching → r ∉ found → r' ∈ found → newer_or_equal r' r)
  ∧ (∀ w, files w = db → truthy query = true →
       (ExampleApi.files_get_search Pg.Up (Some query) w).2
       = json (Body.Search (ExampleApi.hit <$> found) (length found) query) 200)
  ∧ ExampleApi.searchFiles Pg.Down db query None = [].
Proof.
  intros matching found.
  assert (Hfound : found = take 50 (Pg.order_by_uploaded_at_desc matching)) by reflexivity.
  pose proof (order_by_sorted matching) as Hsorted.
  split; [exact Hfound|].
  split; [rewrite Hfound, length_take; lia|].
  split; [rewrite Hfound, length_take, order_by_length; reflexivity|].
  split.
  { rewrite <- (take_drop 50 (Pg.order_by_uploaded_at_desc matching)) in Hsorted.
    rewrite Hfound. by apply StronglySorted_app_1_l in Hsorted. }
  split.
  { intros r Hr. rewrite Hfound in Hr. apply subseteq_take in Hr.
    apply (proj1 (order_by_elem_of _ _)) in Hr. unfold matching in Hr.
    apply list_elem_of_In, filter_In in Hr as [Hin Hhit].
    split; [by apply list_elem_of_In | exact Hhit]. }
  split.
  { intros r r' Hr Hout Hr'.
    apply (sorted_take_drop 50 (Pg.order_by_uploaded_at_desc matching)); try assumption.
    apply (proj2 (order_by_elem_of _ _)) in Hr.
    rewrite <- (take_drop 50 (Pg.order_by_uploaded_at_desc matching)) in Hr.
    apply elem_of_app in Hr as [Hr|Hr]; [|exact Hr].
    destruct (Hout Hr). }
  split; [|reflexivity].
  intros w Hw Hq. unfold ExampleApi.files_get_search. rewrite Hq, Hw. reflexivity.
Qed.

(** The CodeIgniter model has the same default limit. *)
Lemma ci4_searchFiles_at_most_50 db query :
  Ci4.searchFiles db query None
  = take 50 (Pg.order_by_uploaded_at_desc (List.filter (Ci4.search_hit query) db))
  ∧ (length (Ci4.searchFiles db query None) ≤ 50)%nat.
Proof.
  split; [reflexivity|]. unfold Ci4.searchFiles. rewrite length_take.
  cbn [default]. apply Nat.le_min_l.
Qed.

(** Fifty-one matching rows: the oldest one is cut off. *)
Example search_51_rows :
  length (List.filter (ExampleApi.search_hit "NOTES") fifty_one_rows) = 51%nat
  ∧ FileRecord.uploaded_at <$> ExampleApi.searchFiles Pg.Up fifty_one_rows "NOTES" None
    = Z.of_nat <$> reverse (seq 1 50).
Proof. evaluate. Qed.

(** ** Upload: the size guard *)

Lemma upload_file_unfold env file w :
  post_file env file w
  = if ExampleApi.maxSize <? ExampleApi.size file then
      (w, json (Body.Error "File too large (max 100MB)") 413)
    else
      let checksum := hex_of_bytes (SHA256.digest (ExampleApi.content file)) in
      let w1 := emit (Hashed (ExampleApi.content file)) w in
      let filepath := "./uploads/" +:+ ExampleApi.storage_name env file in
      let ins := ExampleApi.insertFile (ExampleApi.insert_conn env)
                   (ExampleApi.gen_random_uuid env) (ExampleApi.NOW env)
                   (ExampleApi.meanwhile env) (files w)
                   (ExampleApi.candidate env file checksum) in
      let w2 := emit (Sql "insertFile") (set_files ins.1 w1) in
      match ins.2 with
      | None =>
          (w2, json (Body.Error "Failed to save file metadata or duplicate detected") 409)
      | Some fileRecord =>
          if ExampleApi.write_ok env then
            (emit (Sql "getStorageStats")
               (emit (FsWrite filepath)
                  (set_uploads (<[filepath := ExampleApi.content file]> (uploads w2)) w2)),
             json (Body.Uploaded
                     (Body.mkUpload "File uploaded successfully"
                        (FileRecord.id fileRecord) (ExampleApi.name file)
                        (ExampleApi.size file) (ExampleApi.type file) checksum
                        (FileRecord.uploaded_at fileRecord) None)) 201)
          else
            let del := ExampleApi.deleteFile (ExampleApi.compensate_conn env)
                         (files (emit (FsWrite filepath) w2)) (ExampleApi.name file) in
            (emit (Sql "deleteFile") (set_files del.1 (emit (FsWrite filepath) w2)),
             json (Body.Error "Failed to save file to disk") 500)
      end.
Proof.
  unfold ExampleApi.files_post. rewrite calculateChecksum_File.
  destruct (ExampleApi.maxSize <? ExampleApi.size file); [reflexivity|].
  cbv zeta.
  destruct (ExampleApi.insertFile _ _ _ _ _ _) as [db [fileRecord|]]; [|reflexivity].
  destruct (ExampleApi.write_ok env); [reflexivity|].
  cbn [fst snd].
  destruct (ExampleApi.deleteFile _ _ _) as [db' ?]. reflexivity.
Qed.

(** C6.  The limit is 104857600 bytes.  An upload whose size exceeds it is
    answered 413 "File too large" with the world returned as it was: both
    stores unchanged and no effect performed, so no digest was computed.
    An upload of at most that size is never answered 413. *)
Theorem upload_size_guard (env : ExampleApi.UploadEnv) (file : ExampleApi.File) (w : World) :
  ExampleApi.maxSize = 104857600
  ∧ (ExampleApi.maxSize < ExampleApi.size file →
       post_file env file w = (w, json (Body.Error "File too large (max 100MB)") 413))
  ∧ (ExampleApi.size file ≤ ExampleApi.maxSize →
       status (post_file env file w).2 ≠ 413%nat).
Proof.
  split; [reflexivity|]. rewrite upload_file_unfold. split.
  - intros Hbig. apply Z.ltb_lt in Hbig. by rewrite Hbig.
  - intros Hok. apply Z.ltb_ge in Hok. rewrite Hok. cbv zeta.
    destruct (ExampleApi.insertFile _ _ _ _ _ _).2; [|discriminate].
    destruct (ExampleApi.write_ok env); discriminate.
Qed.

Lemma upload_size_guard_witness :
  post_file quiet_upload huge_file empty_world
  = (empty_world, json (Body.Error "File too large (max 100MB)") 413)
  ∧ status (post_file quiet_upload hello_a empty_world).2 ≠ 413%nat.
Proof.
  split.
  - apply (upload_size_guard quiet_upload huge_file empty_world). vm_compute. reflexivity.
  - apply (upload_size_guard quiet_upload hello_a empty_world). vm_compute. discriminate.
Defined.

(** Below the limit the guard is silent even for an empty file, which
    the table's CHECK (size > 0) then refuses: the answer is the 409 of a
    failed insert, not 413. *)
Example upload_empty_file :
  ExampleApi.files_post quiet_upload
    (ExampleApi.FormData (ExampleApi.FileField (ExampleApi.mkFile "empty.txt" "text/plain" 0 [])))
    empty_world
  = (mkWorld [] ∅ [Hashed []; Sql "insertFile"],
     json (Body.Error "Failed to save file metadata or duplicate detected") 409).
Proof. evaluate. Qed.

(** A plain text field named "file" passes the guard, is rejected by the
    digest, and is answered by the outer [catch]. *)
Example upload_text_field :
  ExampleApi.files_post quiet_upload (ExampleApi.FormData (ExampleApi.TextField "hello"))
    empty_world
  = (empty_world, json (Body.Error "Failed to upload file") 500).
Proof. evaluate. Qed.

(** The CodeIgniter controller has the same guard. *)
Lemma ci4_create_size_guard env file w :
  Ci4.MAX_FILE_SIZE = 104857600
  ∧ (Ci4.MAX_FILE_SIZE < Ci4.getSize file →
       Ci4.create env (Some file) w = (w, json (Body.Error "File too large (max 100MB)") 413)).
Proof.
  split; [reflexivity|]. intros Hbig. apply Z.ltb_lt in Hbig.
  unfold Ci4.create. by rewrite Hbig.
Qed.

(** ** Deletion *)

Lemma getFileByOriginalName_none conn db name :
  filter (named name) db = [] → ExampleApi.getFileByOriginalName conn db name = None.
Proof.
  intros Hnone. unfold ExampleApi.getFileByOriginalName.
  destruct conn; [|reflexivity]. by rewrite Hnone.
Qed.

(** The lookup finds a newest row of that name. *)
Lemma getFileByOriginalName_some conn db name r :
  ExampleApi.getFileByOriginalName conn db name = Some r →
  conn = Pg.Up ∧ r ∈ db ∧ named name r
  ∧ ∀ x, x ∈ db → named name x → FileRecord.uploaded_at x ≤ FileRecord.uploaded_at r.
Proof.
  unfold ExampleApi.getFileByOriginalName. destruct conn; [|discriminate].
  intros [Hin Hmax]%order_by_head_newest.
  apply list_elem_of_filter in Hin as [Hname Hin].
  repeat split; try assumption.
  intros x Hx Hnx. apply Hmax. by apply list_elem_of_filter.
Qed.

(** C8.  When no row carries the requested display name, the delete route
    answers 404 "File not found", and neither the metadata store nor the
    blob store changes, whatever the environment does. *)
Theorem remove_unknown_name (env : ExampleApi.DeleteEnv) (name : string) (w : World) :
  filter (named name) (files w) = [] →
  (ExampleApi.files_delete env name w).2 = json (Body.Error "File not found") 404
  ∧ files (ExampleApi.files_delete env name w).1 = files w
  ∧ uploads (ExampleApi.files_delete env name w).1 = uploads w.
Proof.
  intros Hnone. unfold ExampleApi.files_delete.
  rewrite (getFileByOriginalName_none _ _ _ Hnone). by cbn.
Qed.

Lemma remove_unknown_name_witness :
  (ExampleApi.files_delete quiet_delete "missing.txt" hello_world).2
  = json (Body.Error "File not found") 404
  ∧ files (ExampleApi.files_delete quiet_delete "missing.txt" hello_world).1
    = files hello_world
  ∧ uploads (ExampleApi.files_delete quiet_delete "missing.txt" hello_world).1
    = uploads hello_world.
Proof.
  apply (remove_unknown_name quiet_delete "missing.txt" hello_world).
  vm_compute. reflexivity.
Defined.

(** The CodeIgniter controller answers the same way. *)
Lemma ci4_delete_unknown_name dir unlink_ok name w :
  Ci4.php_truthy name = true →
  filter (named name) (files w) = [] →
  (Ci4.delete dir unlink_ok (Some name) w).2 = json (Body.Error "File not found") 404
  ∧ files (Ci4.delete dir unlink_ok (Some name) w).1 = files w
  ∧ uploads (Ci4.delete dir unlink_ok (Some name) w).1 = uploads w.
Proof.
  intros Ht Hnone. unfold Ci4.delete, Ci4.findByOriginalName.
  rewrite Ht, Hnone. by cbn.
Qed.

(** ** The dedup transaction *)

Lemma truthy_true s : truthy s = true ↔ s ≠ "".
Proof. unfold truthy. rewrite negb_true_iff. apply String.eqb_neq. Qed.

Lemma same_content_key c s r : same_content c s r ↔ content_key r = (c, s).
Proof. unfold same_content, content_key. split; [intros [-> ->]|intros [= -> ->]]; done. Qed.

(** Under the unique index a key selects at most one row. *)
Lemma unique_match (db : Table) c s r :
  NoDup (content_key <$> db) → r ∈ db → same_content c s r →
  filter (same_content c s) db = [r].
Proof.
  induction db as [|x db IH]; intros Hnd Hin Hr.
  - by apply elem_of_nil in Hin.
  - rewrite fmap_cons in Hnd. apply NoDup_cons in Hnd as [Hx Hnd].
    apply elem_of_cons in Hin as [<-|Hin].
    + rewrite filter_cons_True by done. f_equal.
      destruct (filter (same_content c s) db) as [|y ys] eqn:E; [done|].
      exfalso. apply Hx.
      assert (Hy : y ∈ filter (same_content c s) db) by (rewrite E; left).
      apply list_elem_of_filter in Hy as [Hy Hiny].
      apply list_elem_of_fmap. exists y. split; [|done].
      apply same_content_key in Hr, Hy. congruence.
    + rewrite filter_cons_False; [by apply IH|].
      intros Hxc. apply Hx. apply list_elem_of_fmap. exists r. split; [|done].
      apply same_content_key in Hr, Hxc. congruence.
Qed.

(** The stored row of the candidate's content is what [insertFile] hands
    back, with the table as it was. *)
Lemma insertFile_stored_row uuid now (db : Table) fileData r :
  table_ok db →
  r ∈ db →
  same_content (FileInsert.checksum fileData) (FileInsert.size fileData) r →
  ExampleApi.insertFile Pg.Up uuid now [] db fileData = (db, Some r).
Proof.
  intros [Hnd Hok] Hin Hr. unfold ExampleApi.insertFile.
  rewrite (unique_match db _ _ r Hnd Hin Hr). cbn.
  rewrite Forall_forall in Hok. destruct (Hok r Hin) as [Hid Hfn].
  apply truthy_true in Hid, Hfn. rewrite Hid, Hfn. cbn.
  by rewrite app_nil_r.
Qed.

(** C2.  On a table that already holds a row with the candidate's
    (checksum, size), [insertFile] inserts nothing: it returns the table
    as it was together with that row, the only one with that key, and it
    does so again on every further call.  The code has no isNew flag; the
    row handed back is the stored one, not the candidate. *)
Theorem insertFile_idempotent (uuid : string) (now : Z) (db : Table)
    (fileData : FileInsert.t) (r : FileRecord.t) :
  table_ok db →
  r ∈ db →
  same_content (FileInsert.checksum fileData) (FileInsert.size fileData) r →
  ExampleApi.insertFile Pg.Up uuid now [] db fileData = (db, Some r)
  ∧ (∀ r', r' ∈ db →
       same_content (FileInsert.checksum fileData) (FileInsert.size fileData) r' → r' = r)
  ∧ (∀ uuid' now',
       ExampleApi.insertFile Pg.Up uuid' now' []
         (ExampleApi.insertFile Pg.Up uuid now [] db fileData).1 fileData
       = (db, Some r)).
Proof.
  intros Hok Hin Hr.
  assert (Hcall : ∀ u n, ExampleApi.insertFile Pg.Up u n [] db fileData = (db, Some r)).
  { intros u n. destruct Hok as [Hnd Hrows]. unfold ExampleApi.insertFile.
    rewrite (unique_match db _ _ r Hnd Hin Hr). cbn.
    rewrite Forall_forall in Hrows. destruct (Hrows r Hin) as [Hid Hfn].
    apply truthy_true in Hid, Hfn. rewrite Hid, Hfn. cbn.
    by rewrite app_nil_r. }
  split; [apply Hcall|]. split.
  - intros r' Hin' Hr'. destruct Hok as [Hnd _].
    pose proof (unique_match db _ _ r Hnd Hin Hr) as E.
    rewrite (unique_match db _ _ r' Hnd Hin' Hr') in E. by injection E.
  - intros uuid' now'. rewrite Hcall. apply Hcall.
Qed.

Lemma insertFile_idempotent_witness :
  ExampleApi.insertFile Pg.Up "c1d2e3f4-0a1b-4c2d-8e3f-405162738495" 1700000000500000 []
    [hello_row] (ExampleApi.candidate later_upload hello_b hello_sha)
  = ([hello_row], Some hello_row).
Proof.
  apply (insertFile_idempotent "c1d2e3f4-0a1b-4c2d-8e3f-405162738495" 1700000000500000
           [hello_row] (ExampleApi.candidate later_upload hello_b hello_sha) hello_row).
  - split.
    + vm_compute. apply NoDup_singleton.
    + constructor; [|constructor]. split; vm_compute; discriminate.
  - left.
  - vm_compute. split; reflexivity.
Defined.

(** *** What a successful INSERT guarantees *)

Lemma first_error_None checks :
  Pg.first_error checks = None ↔ Forall (λ c, c.1 = true) checks.
Proof.
  unfold Pg.first_error. induction checks as [|[b e] checks IH]; cbn.
  - split; [constructor | reflexivity].
  - destruct b; cbn.
    + rewrite IH. split; [by constructor | by inversion 1].
    + split; [discriminate | inversion 1; discriminate].
Qed.

Lemma insert_inr db row db' :
  Pg.insert db row = inr db' ↔ Pg.violation db row = None ∧ db' = db ++ [row].
Proof.
  unfold Pg.insert. destruct (Pg.violation db row); split.
  - discriminate.
  - intros [? _]. discriminate.
  - intros [= <-]. done.
  - intros [_ ->]. done.
Qed.

Lemma insert_inl db row e : Pg.insert db row = inl e ↔ Pg.violation db row = Some e.
Proof.
  unfold Pg.insert. destruct (Pg.violation db row); split; try discriminate; congruence.
Qed.

Lemma violation_None db row :
  Pg.violation db row = None →
  0 < FileRecord.size row
  ∧ (FileRecord.id row ∉ (FileRecord.id <$> db))
  ∧ (FileRecord.filename row ∉ (FileRecord.filename <$> db))
  ∧ filter (same_content (FileRecord.checksum row) (FileRecord.size row)) db = [].
Proof.
  unfold Pg.violation. rewrite first_error_None, !Forall_cons. cbn [fst].
  intros (_ & _ & _ & _ & _ & _ & _ & Hpos & Hid & Hfn & Hkey & _).
  apply Z.ltb_lt in Hpos. apply bool_decide_eq_true in Hid, Hfn, Hkey. done.
Qed.

(** The unique (checksum, size) index rejects a second row of the same
    content. *)
Lemma violation_same_content db row r :
  r ∈ db → same_content (FileRecord.checksum row) (FileRecord.size row) r →
  ∃ e, Pg.violation db row = Some e.
Proof.
  intros Hin Hr. destruct (Pg.violation db row) as [e|] eqn:E; [by eexists|].
  apply violation_None in E as (_ & _ & _ & Hnone).
  exfalso. eapply filter_nil_not_elem_of; [exact Hnone | exact Hr | exact Hin].
Qed.

Lemma insert_table_ok db row db' :
  table_ok db → row_ok row → Pg.insert db row = inr db' → table_ok db'.
Proof.
  intros [Hnd Hok] Hrow [Hv ->]%insert_inr.
  apply violation_None in Hv as (_ & _ & _ & Hnone). split.
  - rewrite fmap_app. apply NoDup_app. split; [exact Hnd|]. split.
    + intros k Hk Hk'. cbn in Hk'. apply list_elem_of_singleton in Hk'. subst k.
      apply list_elem_of_fmap in Hk as (r & Hkey & Hr).
      eapply filter_nil_not_elem_of; [exact Hnone | | exact Hr].
      apply same_content_key. done.
    + apply NoDup_singleton.
  - apply Forall_app. split; [exact Hok|]. by constructor.
Qed.

Lemma filter_table_ok (P : FileRecord.t → Prop) `{!∀ r, Decision (P r)} db :
  table_ok db → table_ok (filter P db).
Proof.
  intros [Hnd Hok]. split.
  - eapply sublist_NoDup; [exact Hnd|]. apply fmap_sublist, sublist_filter.
  - rewrite Forall_forall in Hok. apply Forall_forall.
    intros r [_ Hr]%list_elem_of_filter. by apply Hok.
Qed.

Lemma deleteFile_table_ok conn db name :
  table_ok db → table_ok (ExampleApi.deleteFile conn db name).1.
Proof.
  intros Hok. unfold ExampleApi.deleteFile. destruct conn; [|exact Hok].
  destruct (filter (named name) db); [exact Hok|]. cbn. by apply filter_table_ok.
Qed.

(** Whatever [insertFile] answers, the table stays within the schema,
    provided the generated id and the candidate's storage key are
    non-empty and the rows committed meanwhile are consistent with it. *)
Lemma insertFile_table_ok conn uuid now meanwhile db fileData :
  table_ok (db ++ meanwhile) → uuid ≠ "" → FileInsert.filename fileData ≠ "" →
  table_ok (ExampleApi.insertFile conn uuid now meanwhile db fileData).1.
Proof.
  intros Hok Hid Hfn. unfold ExampleApi.insertFile.
  destruct conn; [|exact Hok].
  destruct (0 <? length _)%nat.
  - destruct (head _) as [existingFile|]; [|exact Hok].
    destruct (truthy _ && truthy _); exact Hok.
  - destruct (Pg.insert _ _) as [e|db'] eqn:E; [exact Hok|].
    cbn. eapply insert_table_ok; [exact Hok | | exact E]. by split.
Qed.

(** The first call creates the row; every later call with the same
    content, under whatever name, gets that row and adds nothing. *)
Lemma insertFile_converges uuid now db fileData db1 r1 uuid' now' fileData' :
  table_ok db → uuid ≠ "" → FileInsert.filename fileData ≠ "" →
  ExampleApi.insertFile Pg.Up uuid now [] db fileData = (db1, Some r1) →
  FileInsert.checksum fileData' = FileInsert.checksum fileData →
  FileInsert.size fileData' = FileInsert.size fileData →
  ExampleApi.insertFile Pg.Up uuid' now' [] db1 fileData' = (db1, Some r1).
Proof.
  intros Hok Hid Hfn Hfirst Hc Hs.
  assert (Hok1 : table_ok db1).
  { pose proof (insertFile_table_ok Pg.Up uuid now [] db fileData) as H.
    rewrite app_nil_r, Hfirst in H. by apply H. }
  assert (Hr1 : r1 ∈ db1
                ∧ same_content (FileInsert.checksum fileData) (FileInsert.size fileData) r1).
  { unfold ExampleApi.insertFile in Hfirst. rewrite app_nil_r in Hfirst.
    destruct (0 <? length _)%nat.
    - destruct (head _) as [existingFile|] eqn:Eh; [|discriminate].
      destruct (truthy _ && truthy _); [|discriminate].
      injection Hfirst as <- <-.
      apply head_Some_elem_of, list_elem_of_filter in Eh as [? ?]. done.
    - destruct (Pg.insert _ _) as [e|db'] eqn:E; [discriminate|].
      injection Hfirst as <- <-. apply insert_inr in E as [_ ->]. split.
      + apply elem_of_app. right. left.
      + done. }
  destruct Hr1 as [Hin Hr1].
  apply insertFile_stored_row; [exact Hok1 | exact Hin |]. by rewrite Hc, Hs.
Qed.

(** *** Losing the race between SELECT and INSERT *)

Example hello_sha_is_digest :
  hex_of_bytes (SHA256.digest (bytes_of_string "hello")) = hello_sha.
Proof. vm_compute. reflexivity. Qed.

(** The claim of C3 fails: with an empty table at SELECT time and the
    winner's row committed before the INSERT, the loser gets null, not the
    winner's row, and the route answers 409. *)
Lemma insertFile_lost_race_counterexample :
  same_content (FileInsert.checksum loser_candidate) (FileInsert.size loser_candidate)
    winner_row
  ∧ ExampleApi.insertFile Pg.Up "7d0f2c5e-1f8a-4c3b-9a57-0c2d4e6f8a10" 1700000000000001
      [winner_row] [] loser_candidate
    = ([winner_row], None)
  ∧ (ExampleApi.insertFile Pg.Up "7d0f2c5e-1f8a-4c3b-9a57-0c2d4e6f8a10" 1700000000000001
       [winner_row] [] loser_candidate).2
    ≠ Some winner_row
  ∧ (post_file racing_upload hello_a empty_world).2
    = json (Body.Error "Failed to save file metadata or duplicate detected") 409.
Proof.
  split; [split; reflexivity|].
  split; [vm_compute; reflexivity|].
  split; [vm_compute; discriminate|].
  vm_compute. reflexivity.
Qed.

(** C3, as the code has it.  When the SELECT finds no row of the
    upload's content and a row of that content is committed before the
    INSERT, the INSERT fails, nothing is re-selected, and [insertFile]
    returns null with the table holding the committed rows only.  The
    upload route then answers 409 and writes no blob. *)
Theorem insertFile_lost_race (env : ExampleApi.UploadEnv) (file : ExampleApi.File)
    (w : World) (winner : FileRecord.t) :
  let checksum := hex_of_bytes (SHA256.digest (ExampleApi.content file)) in
  ExampleApi.size file ≤ ExampleApi.maxSize →
  ExampleApi.insert_conn env = Pg.Up →
  filter (same_content checksum (ExampleApi.size file)) (files w) = [] →
  winner ∈ ExampleApi.meanwhile env →
  same_content checksum (ExampleApi.size file) winner →
  ExampleApi.insertFile Pg.Up (ExampleApi.gen_random_uuid env) (ExampleApi.NOW env)
    (ExampleApi.meanwhile env) (files w) (ExampleApi.candidate env file checksum)
  = (files w ++ ExampleApi.meanwhile env, None)
  ∧ (post_file env file w).2
    = json (Body.Error "Failed to save file metadata or duplicate detected") 409
  ∧ uploads (post_file env file w).1 = uploads w
  ∧ files (post_file env file w).1 = files w ++ ExampleApi.meanwhile env.
Proof.
  intros checksum Hsize Hconn Hnone Hin Hw.
  assert (Hins :
    ExampleApi.insertFile Pg.Up (ExampleApi.gen_random_uuid env) (ExampleApi.NOW env)
      (ExampleApi.meanwhile env) (files w) (ExampleApi.candidate env file checksum)
    = (files w ++ ExampleApi.meanwhile env, None)).
  { unfold ExampleApi.insertFile.
    cbn [ExampleApi.candidate FileInsert.checksum FileInsert.size].
    rewrite Hnone. cbn.
    destruct (violation_same_content (files w ++ ExampleApi.meanwhile env)
                (ExampleApi.new_row (ExampleApi.gen_random_uuid env) (ExampleApi.NOW env)
                   (ExampleApi.candidate env file checksum)) winner)
      as [e He]; [apply elem_of_app; by right | exact Hw |].
    apply insert_inl in He. by rewrite He. }
  split; [exact Hins|].
  rewrite upload_file_unfold. apply Z.ltb_ge in Hsize. rewrite Hsize, Hconn. cbv zeta.
  fold checksum. rewrite Hins. by cbn.
Qed.

Lemma insertFile_lost_race_witness :
  ExampleApi.insertFile Pg.Up "7d0f2c5e-1f8a-4c3b-9a57-0c2d4e6f8a10" 1700000000000001
    [winner_row] [] loser_candidate
  = ([winner_row], None)
  ∧ (post_file racing_upload hello_a empty_world).2
    = json (Body.Error "Failed to save file metadata or duplicate detected") 409
  ∧ uploads (post_file racing_upload hello_a empty_world).1 = ∅
  ∧ files (post_file racing_upload hello_a empty_world).1 = [winner_row].
Proof.
  apply (insertFile_lost_race racing_upload hello_a empty_world winner_row).
  - vm_compute. discriminate.
  - reflexivity.
  - reflexivity.
  - left.
  - split; vm_compute; reflexivity.
Defined.

(** The CodeIgniter model gives up in the same way. *)
Lemma ci4_insert_lost_race uuid now db meanwhile data winner :
  filter (same_content (Ci4.checksum data) (Ci4.size data)) db = [] →
  winner ∈ meanwhile →
  same_content (Ci4.checksum data) (Ci4.size data) winner →
  Ci4.insertWithDuplicateCheck uuid now meanwhile db data = (db ++ meanwhile, None).
Proof.
  intros Hnone Hin Hw. unfold Ci4.insertWithDuplicateCheck. rewrite Hnone. cbn.
  destruct (negb _); [reflexivity|].
  destruct (violation_same_content (db ++ meanwhile) (Ci4.new_row uuid now data) winner)
    as [e He]; [apply elem_of_app; by right | exact Hw |].
  apply insert_inl in He. by rewrite He.
Qed.

(** ** Upload: a failed blob write and its compensation *)

(** The claim of C5 fails: when the disk write fails and the compensating
    delete cannot reach the database, the answer is the very 500 "Failed
    to save file to disk" of a compensated failure, while the row just
    inserted stays behind without a blob. *)
Lemma upload_orphan_counterexample :
  (post_file disk_and_compensation_fail hello_a empty_world).2
  = json (Body.Error "Failed to save file to disk") 500
  ∧ (post_file disk_and_compensation_fail hello_a empty_world).2
    = (post_file disk_fails hello_a empty_world).2
  ∧ files (post_file disk_and_compensation_fail hello_a empty_world).1 = [hello_row]
  ∧ uploads (post_file disk_and_compensation_fail hello_a empty_world).1 = ∅
  ∧ files (post_file disk_fails hello_a empty_world).1 = [].
Proof. evaluate. Qed.

(** C5, as the code has it.  Whenever the insert hands back a row and the
    disk write fails, the route answers 500 "Failed to save file to disk",
    whether or not the compensating delete goes through; no other answer
    exists for a failed compensation.  If the delete cannot reach the
    database, the table keeps every row it had after the insert, and the
    blob store is unchanged. *)
Theorem upload_failed_compensation_same_answer (env : ExampleApi.UploadEnv)
    (file : ExampleApi.File) (w : World) (db : Table) (fileRecord : FileRecord.t) :
  ExampleApi.size file ≤ ExampleApi.maxSize →
  ExampleApi.write_ok env = false →
  ExampleApi.insertFile (ExampleApi.insert_conn env) (ExampleApi.gen_random_uuid env)
    (ExampleApi.NOW env) (ExampleApi.meanwhile env) (files w)
    (ExampleApi.candidate env file (hex_of_bytes (SHA256.digest (ExampleApi.content file))))
  = (db, Some fileRecord) →
  (post_file env file w).2 = json (Body.Error "Failed to save file to disk") 500
  ∧ uploads (post_file env file w).1 = uploads w
  ∧ (ExampleApi.compensate_conn env = Pg.Down →
       files (post_file env file w).1 = db).
Proof.
  intros Hsize Hdisk Hins. rewrite upload_file_unfold.
  apply Z.ltb_ge in Hsize. rewrite Hsize, Hdisk. cbv zeta. rewrite Hins. cbn.
  repeat split. by intros ->.
Qed.

Lemma upload_failed_compensation_same_answer_witness :
  (post_file disk_and_compensation_fail hello_a empty_world).2
  = json (Body.Error "Failed to save file to disk") 500
  ∧ uploads (post_file disk_and_compensation_fail hello_a empty_world).1
    = uploads empty_world
  ∧ (ExampleApi.compensate_conn disk_and_compensation_fail = Pg.Down →
       files (post_file disk_and_compensation_fail hello_a empty_world).1 = [hello_row]).
Proof.
  apply (upload_failed_compensation_same_answer disk_and_compensation_fail hello_a
           empty_world [hello_row] hello_row).
  - vm_compute. discriminate.
  - reflexivity.
  - vm_compute. reflexivity.
Defined.

(** ** Deletion by display name *)

Lemma deleteFile_up db name r :
  r ∈ db → named name r →
  ExampleApi.deleteFile Pg.Up db name = (filter (λ x, ¬ named name x) db, true).
Proof.
  intros Hin Hr. unfold ExampleApi.deleteFile.
  destruct (filter (named name) db) as [|file rest] eqn:E.
  - exfalso. eapply filter_nil_not_elem_of; [exact E | exact Hr | exact Hin].
  - f_equal. apply Nat.ltb_lt.
    assert (length (filter (λ x, ¬ named name x) db) < length db)%nat; [|lia].
    apply (length_filter_lt _ _ r); [exact Hin|]. intros Hn. by apply Hn.
Qed.

(** What the delete route does when the name is known: every row of that
    name goes, rows of other names stay in place, the blob of the newest
    row of that name is removed if [rm] succeeds, and the answer is 200
    either way. *)
Lemma remove_found env name w r :
  ExampleApi.getFileByOriginalName (ExampleApi.lookup_conn env) (files w) name = Some r →
  ExampleApi.delete_conn env = Pg.Up →
  (ExampleApi.files_delete env name w).2 = json (Body.Deleted "File deleted successfully" name) 200
  ∧ files (ExampleApi.files_delete env name w).1 = filter (λ x, ¬ named name x) (files w)
  ∧ uploads (ExampleApi.files_delete env name w).1
    = if ExampleApi.rm_ok env
      then delete ("./uploads/" +:+ FileRecord.filename r) (uploads w)
      else uploads w.
Proof.
  intros Hfound Hconn. unfold ExampleApi.files_delete. rewrite Hfound, Hconn.
  apply getFileByOriginalName_some in Hfound as (_ & Hin & Hname & _).
  cbn [files emit]. rewrite (deleteFile_up _ _ r Hin Hname). cbn.
  destruct (ExampleApi.rm_ok env); done.
Qed.

Example two_a_world_contents :
  files two_a_world = [a_old; a_new; b_row]
  ∧ uploads two_a_world
    = <[ "./uploads/1699999990000_aaaaaa_a.txt" := bytes_of_string "v1" ]>
        (<[ "./uploads/1699999995000_bbbbbb_a.txt" := bytes_of_string "v22" ]>
           {[ "./uploads/1699999997000_cccccc_b.txt" := bytes_of_string "bbbb" ]}).
Proof. evaluate. Qed.

(** The claim of C7 fails.  Three uploads have left two rows named
    "a.txt" (different contents) and one named "b.txt", each with its
    blob.  Deleting "a.txt" removes both rows of that name, the older one
    included; only the newer row's blob is removed. *)
Lemma remove_older_namesake_counterexample :
  files two_a_world = [a_old; a_new; b_row]
  ∧ named "a.txt" a_old ∧ named "a.txt" a_new
  ∧ FileRecord.uploaded_at a_old < FileRecord.uploaded_at a_new
  ∧ ExampleApi.getFileByOriginalName Pg.Up (files two_a_world) "a.txt" = Some a_new
  ∧ files (ExampleApi.files_delete quiet_delete "a.txt" two_a_world).1 = [b_row]
  ∧ (a_old ∉ files (ExampleApi.files_delete quiet_delete "a.txt" two_a_world).1)
  ∧ length (files two_a_world)
    = S (S (length (files (ExampleApi.files_delete quiet_delete "a.txt" two_a_world).1)))
  ∧ uploads (ExampleApi.files_delete quiet_delete "a.txt" two_a_world).1
    = <[ "./uploads/1699999990000_aaaaaa_a.txt" := bytes_of_string "v1" ]>
        {[ "./uploads/1699999997000_cccccc_b.txt" := bytes_of_string "bbbb" ]}.
Proof. evaluate. Qed.

(** C7, as the code has it.  When at least one row carries the requested
    display name and the database is reachable, the delete route locates
    a most recent row of that name, removes every row of that name and no
    other row, so that a later lookup by that name finds nothing; it
    removes the blob of the located row if [rm] succeeds; and it answers
    200 whether or not [rm] succeeds. *)
Theorem remove_deletes_by_name (env : ExampleApi.DeleteEnv) (name : string) (w : World)
    (r0 : FileRecord.t) :
  ExampleApi.lookup_conn env = Pg.Up →
  ExampleApi.delete_conn env = Pg.Up →
  r0 ∈ files w →
  named name r0 →
  ∃ r,
    ExampleApi.getFileByOriginalName Pg.Up (files w) name = Some r
    ∧ r ∈ files w ∧ named name r
    ∧ (∀ x, x ∈ files w → named name x →
         FileRecord.uploaded_at x ≤ FileRecord.uploaded_at r)
    ∧ (ExampleApi.files_delete env name w).2
      = json (Body.Deleted "File deleted successfully" name) 200
    ∧ files (ExampleApi.files_delete env name w).1 = filter (λ x, ¬ named name x) (files w)
    ∧ (∀ conn,
         ExampleApi.getFileByOriginalName conn (files (ExampleApi.files_delete env name w).1) name
         = None)
    ∧ uploads (ExampleApi.files_delete env name w).1
      = if ExampleApi.rm_ok env
        then delete ("./uploads/" +:+ FileRecord.filename r) (uploads w)
        else uploads w.
Proof.
  intros Hlook Hdel Hin0 Hname0.
  destruct (ExampleApi.getFileByOriginalName Pg.Up (files w) name) as [r|] eqn:Hfound.
  - exists r. split; [reflexivity|].
    pose proof (getFileByOriginalName_some _ _ _ _ Hfound) as (_ & Hin & Hname & Hmax).
    rewrite <- Hlook in Hfound.
    destruct (remove_found env name w r Hfound Hdel) as (Hresp & Hfiles & Hblobs).
    repeat split; try assumption.
    intros conn. apply getFileByOriginalName_none. rewrite Hfiles.
    destruct (filter (named name) (filter (λ x, ¬ named name x) (files w)))
      as [|y ys] eqn:E; [reflexivity|].
    assert (Hy : y ∈ filter (named name) (filter (λ x, ¬ named name x) (files w)))
      by (rewrite E; left).
    apply list_elem_of_filter in Hy as [Hy [Hny _]%list_elem_of_filter]. contradiction.
  - exfalso. unfold ExampleApi.getFileByOriginalName in Hfound.
    apply head_None, (f_equal length) in Hfound. rewrite order_by_length in Hfound.
    assert (Hr0 : r0 ∈ filter (named name) (files w)) by by apply list_elem_of_filter.
    destruct (filter (named name) (files w)); [by apply elem_of_nil in Hr0 | discriminate].
Qed.

Lemma remove_deletes_by_name_witness :
  ∃ r,
    ExampleApi.getFileByOriginalName Pg.Up (files two_a_world) "a.txt" = Some r
    ∧ r ∈ files two_a_world ∧ named "a.txt" r
    ∧ (∀ x, x ∈ files two_a_world → named "a.txt" x →
         FileRecord.uploaded_at x ≤ FileRecord.uploaded_at r)
    ∧ (ExampleApi.files_delete quiet_delete "a.txt" two_a_world).2
      = json (Body.Deleted "File deleted successfully" "a.txt") 200
    ∧ files (ExampleApi.files_delete quiet_delete "a.txt" two_a_world).1
      = filter (λ x, ¬ named "a.txt" x) (files two_a_world)
    ∧ (∀ conn,
         ExampleApi.getFileByOriginalName conn
           (files (ExampleApi.files_delete quiet_delete "a.txt" two_a_world).1) "a.txt"
         = None)
    ∧ uploads (ExampleApi.files_delete quiet_delete "a.txt" two_a_world).1
      = if ExampleApi.rm_ok quiet_delete
        then delete ("./uploads/" +:+ FileRecord.filename r) (uploads two_a_world)
        else uploads two_a_world.
Proof.
  apply (remove_deletes_by_name quiet_delete "a.txt" two_a_world a_old).
  - reflexivity.
  - reflexivity.
  - apply (bool_decide_unpack _). vm_compute. exact I.
  - reflexivity.
Defined.

(** The CodeIgniter model deletes by name in the same way. *)
Lemma ci4_deleteByOriginalName_all db name :
  Ci4.deleteByOriginalName db name = (filter (λ x, ¬ named name x) db, true).
Proof. reflexivity. Qed.

(** ** Upload: compensation after a failed blob write *)

(** What the compensation does when it reaches the database: the row
    just inserted goes, and with it every other row of the same display
    name; rows of other names stay; the answer is 500. *)
Lemma upload_compensated env file w db fileRecord :
  ExampleApi.size file ≤ ExampleApi.maxSize →
  ExampleApi.write_ok env = false →
  ExampleApi.compensate_conn env = Pg.Up →
  filter (same_content (hex_of_bytes (SHA256.digest (ExampleApi.content file)))
            (ExampleApi.size file)) (files w) = [] →
  ExampleApi.insertFile (ExampleApi.insert_conn env) (ExampleApi.gen_random_uuid env)
    (ExampleApi.NOW env) (ExampleApi.meanwhile env) (files w)
    (ExampleApi.candidate env file (hex_of_bytes (SHA256.digest (ExampleApi.content file))))
  = (db, Some fileRecord) →
  (post_file env file w).2 = json (Body.Error "Failed to save file to disk") 500
  ∧ files (post_file env file w).1
    = filter (λ x, ¬ named (ExampleApi.name file) x)
        (files w ++ ExampleApi.meanwhile env)
  ∧ uploads (post_file env file w).1 = uploads w.
Proof.
  intros Hsize Hdisk Hconn Hnew Hins.
  assert (Hdb : db = (files w ++ ExampleApi.meanwhile env) ++ [fileRecord]
                ∧ named (ExampleApi.name file) fileRecord).
  { unfold ExampleApi.insertFile in Hins.
    destruct (ExampleApi.insert_conn env); [|discriminate].
    cbn [ExampleApi.candidate FileInsert.checksum FileInsert.size] in Hins.
    rewrite Hnew in Hins. cbn in Hins.
    destruct (Pg.insert _ _) as [e|db'] eqn:E; [discriminate|].
    injection Hins as <- <-. apply insert_inr in E as [_ ->]. done. }
  destruct Hdb as [-> Hname].
  rewrite upload_file_unfold.
  apply Z.ltb_ge in Hsize. rewrite Hsize, Hdisk, Hconn. cbv zeta. rewrite Hins.
  cbn [fst snd files emit set_files uploads].
  rewrite (deleteFile_up _ _ fileRecord); [|apply elem_of_app; right; left | exact Hname].
  cbn [fst snd files emit set_files uploads].
  split; [reflexivity|]. split; [|reflexivity].
  rewrite filter_app, filter_cons_False, filter_nil, app_nil_r; [reflexivity|].
  intros Hn. by apply Hn.
Qed.

(** C4 at a failing input.  Two uploads have left an "a.txt" and a
    "b.txt".  A new upload named "a.txt", with other contents, is
    inserted; its disk write fails, and the compensation deletes by display
    name: the older "a.txt" row is deleted together with the new one,
    while the older blob stays on disk.  "b.txt" is untouched. *)
Theorem upload_compensation_deletes_older_namesake :
  files old_a_world = [a_old; b_row]
  ∧ filter (same_content hello_sha 5) (files old_a_world) = []
  ∧ (post_file disk_fails hello_a old_a_world).2
    = json (Body.Error "Failed to save file to disk") 500
  ∧ files (post_file disk_fails hello_a old_a_world).1 = [b_row]
  ∧ uploads (post_file disk_fails hello_a old_a_world).1
    = <[ "./uploads/1699999990000_aaaaaa_a.txt" := bytes_of_string "v1" ]>
        {[ "./uploads/1699999997000_cccccc_b.txt" := bytes_of_string "bbbb" ]}.
Proof. evaluate. Qed.

(** The CodeIgniter controller compensates by display name as well. *)
Example ci4_compensation_deletes_older_namesake :
  files (Ci4.create
           (Ci4.mkCreateEnv 1700000000 "0a1b2c3d" "ci4-1" 1700000000000000
              "7d0f2c5e-1f8a-4c3b-9a57-0c2d4e6f8a10" 1700000000000000 [] "writable/uploads/"
              false)
           (Some (Ci4.mkUploadedFile "a.txt" "text/plain" 5 (bytes_of_string "hello")))
           old_a_world).1
  = [b_row].
Proof. vm_compute. reflexivity. Qed.

(** ** Upload of content that is already stored *)

(** The Bun route does not look at whether the row handed back is the
    candidate or an older row: with a working disk it writes the blob
    under the freshly generated storage key and answers 201 without a
    duplicate field. *)
Lemma upload_existing_content env file w r :
  ExampleApi.size file ≤ ExampleApi.maxSize →
  ExampleApi.insert_conn env = Pg.Up →
  ExampleApi.meanwhile env = [] →
  ExampleApi.write_ok env = true →
  table_ok (files w) →
  r ∈ files w →
  same_content (hex_of_bytes (SHA256.digest (ExampleApi.content file)))
    (ExampleApi.size file) r →
  files (post_file env file w).1 = files w
  ∧ uploads (post_file env file w).1
    = <[ "./uploads/" +:+ ExampleApi.storage_name env file := ExampleApi.content file ]>
        (uploads w)
  ∧ (post_file env file w).2
    = json (Body.Uploaded
              (Body.mkUpload "File uploaded successfully" (FileRecord.id r)
                 (ExampleApi.name file) (ExampleApi.size file) (ExampleApi.type file)
                 (hex_of_bytes (SHA256.digest (ExampleApi.content file)))
                 (FileRecord.uploaded_at r) None)) 201.
Proof.
  intros Hsize Hconn Hmean Hdisk Hok Hin Hr. rewrite upload_file_unfold.
  apply Z.ltb_ge in Hsize. rewrite Hsize, Hconn, Hmean, Hdisk. cbv zeta.
  rewrite (insertFile_stored_row (ExampleApi.gen_random_uuid env) (ExampleApi.NOW env)
             (files w)
             (ExampleApi.candidate env file
                (hex_of_bytes (SHA256.digest (ExampleApi.content file)))) r Hok Hin Hr).
  by cbn.
Qed.

(** C1 at a failing input.  "hello" is stored as "a.txt"; the same bytes
    arrive again as "b.txt".  No row is added, yet a second blob with the
    same contents is written under a new storage key, and the 201 body
    carries the first row's id but no duplicate flag. *)
Theorem upload_duplicate_writes_second_blob :
  files hello_world = [hello_row]
  ∧ uploads hello_world
    = {[ "./uploads/1700000000000_k3x9qa_a.txt" := bytes_of_string "hello" ]}
  ∧ same_content (hex_of_bytes (SHA256.digest (ExampleApi.content hello_b)))
      (ExampleApi.size hello_b) hello_row
  ∧ files (post_file later_upload hello_b hello_world).1 = [hello_row]
  ∧ uploads (post_file later_upload hello_b hello_world).1
    = <[ "./uploads/1700000000500_p0o9i8_b.txt" := bytes_of_string "hello" ]>
        {[ "./uploads/1700000000000_k3x9qa_a.txt" := bytes_of_string "hello" ]}
  ∧ uploads (post_file later_upload hello_b hello_world).1 ≠ uploads hello_world
  ∧ (post_file later_upload hello_b hello_world).2
    = json (Body.Uploaded
              (Body.mkUpload "File uploaded successfully"
                 "7d0f2c5e-1f8a-4c3b-9a57-0c2d4e6f8a10" "b.txt" 5 "text/plain" hello_sha
                 1700000000000000 None)) 201.
Proof.
  assert (Hup :
    uploads (post_file later_upload hello_b hello_world).1
    = <[ "./uploads/1700000000500_p0o9i8_b.txt" := bytes_of_string "hello" ]>
        {[ "./uploads/1700000000000_k3x9qa_a.txt" := bytes_of_string "hello" ]})
    by (vm_compute; reflexivity).
  assert (Hw : uploads hello_world
               = {[ "./uploads/1700000000000_k3x9qa_a.txt" := bytes_of_string "hello" ]})
    by evaluate.
  split; [vm_compute; reflexivity|].
  split; [exact Hw|].
  split; [split; vm_compute; reflexivity|].
  split; [vm_compute; reflexivity|].
  split; [exact Hup|].
  split; [|vm_compute; reflexivity].
  rewrite Hup, Hw. intros Heq.
  assert (H : ({[ "./uploads/1700000000000_k3x9qa_a.txt" := bytes_of_string "hello" ]}
                 : gmap string Bytes) !! "./uploads/1700000000500_p0o9i8_b.txt"
              = Some (bytes_of_string "hello")).
  { rewrite <- Heq. apply lookup_insert_eq. }
  rewrite lookup_singleton_ne in H by discriminate.
  discriminate H.
Qed.

(** The CodeIgniter controller does check: when the row handed back is
    not the candidate, it leaves the blob store alone and answers 201
    with the stored row's id, size, type and upload time, tagged
    duplicate. *)
Lemma ci4_create_existing_content env file w r :
  Ci4.getSize file ≤ Ci4.MAX_FILE_SIZE →
  Ci4.meanwhile env = [] →
  table_ok (files w) →
  r ∈ files w →
  same_content (Ci4.calculate (Ci4.contents file)) (Ci4.getSize file) r →
  FileRecord.filename r ≠ Ci4.storage_name env file →
  files (Ci4.create env (Some file) w).1 = files w
  ∧ uploads (Ci4.create env (Some file) w).1 = uploads w
  ∧ (Ci4.create env (Some file) w).2
    = json (Body.Uploaded
              (Body.mkUpload "Duplicate file detected" (FileRecord.id r)
                 (Ci4.getClientName file) (FileRecord.size r) (FileRecord.mime_type r)
                 (Ci4.calculate (Ci4.contents file)) (FileRecord.uploaded_at r)
                 (Some true))) 201.
Proof.
  intros Hsize Hmean [Hnd _] Hin Hr Hfresh. unfold Ci4.create.
  apply Z.ltb_ge in Hsize. rewrite Hsize. cbv zeta.
  unfold Ci4.insertWithDuplicateCheck.
  cbn [Ci4.fileData Ci4.checksum Ci4.size].
  rewrite (unique_match (files (emit _ w)) _ _ r Hnd Hin Hr), Hmean.
  cbn [head]. apply String.eqb_neq in Hfresh. rewrite Hfresh.
  cbn. by rewrite app_nil_r.
Qed.

Example ci4_duplicate_leaves_blobs_alone :
  uploads (Ci4.create
             (Ci4.mkCreateEnv 1700000001 "0a1b2c3d" "ci4-1" 1700000001000000
                "c1d2e3f4-0a1b-4c2d-8e3f-405162738495" 1700000001000000 []
                "./uploads/" true)
             (Some (Ci4.mkUploadedFile "b.txt" "text/plain" 5 (bytes_of_string "hello")))
             hello_world).1
  = uploads hello_world.
Proof. evaluate. Qed.

(** ** The tables the routes produce *)

Lemma storage_name_nonempty env file : ExampleApi.storage_name env file ≠ "".
Proof.
  unfold ExampleApi.storage_name.
  destruct (pretty (ExampleApi.Date_now env)); discriminate.
Qed.

(** Uploads keep the table within [table_ok]: the hypothesis of C2 holds
    in every state the routes reach from the empty table. *)
Lemma upload_table_ok env req w :
  table_ok (files w ++ ExampleApi.meanwhile env) →
  table_ok (files w) →
  ExampleApi.gen_random_uuid env ≠ "" →
  table_ok (files (ExampleApi.files_post env req w).1).
Proof.
  intros Hok Hok0 Hid. destruct req as [|[|s|file]]; [exact Hok0.. | | ].
  { cbn. destruct (truthy s); exact Hok0. }
  rewrite upload_file_unfold.
  destruct (ExampleApi.maxSize <? ExampleApi.size file); [exact Hok0|]. cbv zeta.
  pose proof (insertFile_table_ok (ExampleApi.insert_conn env)
                (ExampleApi.gen_random_uuid env) (ExampleApi.NOW env)
                (ExampleApi.meanwhile env) (files w)
                (ExampleApi.candidate env file
                   (hex_of_bytes (SHA256.digest (ExampleApi.content file))))
                Hok Hid (storage_name_nonempty env file)) as Hins.
  destruct (ExampleApi.insertFile _ _ _ _ _ _).2; [|exact Hins].
  destruct (ExampleApi.write_ok env); [exact Hins|].
  cbn [fst files emit set_files]. by apply deleteFile_table_ok.
Qed.

Lemma remove_table_ok env name w :
  table_ok (files w) → table_ok (files (ExampleApi.files_delete env name w).1).
Proof.
  intros Hok. unfold ExampleApi.files_delete.
  destruct (ExampleApi.getFileByOriginalName _ _ _); [|exact Hok].
  cbn [files emit].
  pose proof (deleteFile_table_ok (ExampleApi.delete_conn env) (files w) name Hok) as Hdel.
  destruct (ExampleApi.deleteFile _ _ _) as [db deleted]. cbn [fst] in Hdel.
  destruct deleted; cbn; [|exact Hdel].
  destruct (ExampleApi.rm_ok env); exact Hdel.
Qed.

Lemma table_ok_nil : table_ok [].
Proof. split; constructor. Qed.

(** Every world the routes reach has a table within [table_ok]. *)
Lemma served_table_ok w : served w → table_ok (files w).
Proof.
  induction 1 as [|env req w _ IH Hmean Hid|env name w _ IH|conn q w _ IH].
  - apply table_ok_nil.
  - apply upload_table_ok; [rewrite Hmean, app_nil_r| |]; assumption.
  - by apply remove_table_ok.
  - unfold ExampleApi.files_get_search. destruct q as [query|]; [|exact IH].
    destruct (truthy query); exact IH.
Qed.

(** On the worlds the routes reach, an insert of stored content hands
    back the stored row and leaves the table alone. *)
Corollary insertFile_stored_row_served w uuid now fileData r :
  served w → r ∈ files w →
  same_content (FileInsert.checksum fileData) (FileInsert.size fileData) r →
  ExampleApi.insertFile Pg.Up uuid now [] (files w) fileData = (files w, Some r).
Proof.
  intros Hw Hin Hr. by apply insertFile_stored_row; [apply served_table_ok|..].
Qed.

Example hello_world_served : served hello_world.
Proof. apply served_upload; [apply served_empty | reflexivity | discriminate]. Qed.

(* ===================================================================== *)
(** * Further properties of the code                                     *)
(* ===================================================================== *)

(** ** The rendering of a digest, read back *)

Lemma unhex_pair b s : unhex (hex_pair b +:+ s) = b :: unhex s.
Proof. destruct b; reflexivity. Qed.

Lemma unhex_hex_of_bytes bs : unhex (hex_of_bytes bs) = bs.
Proof.
  induction bs as [|b bs IH]; [reflexivity|].
  rewrite hex_of_bytes_cons. fold (hex_pair b). rewrite unhex_pair. by rewrite IH.
Qed.

(** ** LIKE *)

Section Like.

Implicit Types (c x : ascii) (p s q : list ascii).

Lemma like_percent esc p s :
  Pg.like esc ("%"%char :: p) s = true ↔ ∃ k, Pg.like esc p (drop k s) = true.
Proof.
  induction s as [|x s IH].
  - simpl. rewrite orb_false_r. split; [by exists 0%nat|]. by intros [[|k] H].
  - change (Pg.like esc ("%"%char :: p) (x :: s))
      with (Pg.like esc p (x :: s) || Pg.like esc ("%"%char :: p) s).
    rewrite orb_true_iff, IH. split.
    + intros [H|[k H]]; [by exists 0%nat | by exists (S k)].
    + intros [[|k] H]; [by left | right; by exists k].
Qed.










End Like.

Lemma list_ascii_of_string_app (a b : string) :
  list_ascii_of_string (a +:+ b) = list_ascii_of_string a ++ list_ascii_of_string b.
Proof.
  induction a as [|c a IH]; [by rewrite append_nil_l|].
  rewrite append_cons. cbn. by rewrite IH.
Qed.



(** ** Queries against the one ordering *)

Section ListingOrder.

Implicit Types (r x : FileRecord.t) (l db : Table).






Lemma List_filter_all (f : FileRecord.t → bool) l :
  (∀ r, f r = true) → List.filter f l = l.
Proof. intros H. induction l as [|x l IH]; simpl; [done|]. by rewrite H, IH. Qed.

End ListingOrder.


(** ** Paging *)

Lemma bound_Int z :
  0 ≤ z → z < 2 ^ 63 → ExampleApi.bound (ExampleApi.Int z) = Some (Z.to_nat z).
Proof.
  intros H0 H1. unfold ExampleApi.bound, Pg.row_count, Pg.bigint.
  rewrite (proj2 (Z.leb_le 0 z) H0), (proj2 (Z.ltb_lt z _) H1).
  by rewrite (proj2 (Z.leb_le _ z)) by lia.
Qed.

Lemma bound_negative z : z < 0 → ExampleApi.bound (ExampleApi.Int z) = None.
Proof.
  intros H. unfold ExampleApi.bound, Pg.row_count.
  by rewrite (proj2 (Z.leb_gt 0 z) H).
Qed.



(** X3.  A limit or an offset that PostgreSQL refuses (NaN, a negative
    number, a number beyond bigint) and a lost connection do not fail
    the list route: it answers 200 with no files, count 0 and total
    size 0, echoing the numbers it parsed, and leaves both stores
    alone. *)
Theorem files_get_bad_paging (env : ExampleApi.ReadEnv) (limit offset : option string)
    (w : World) :
  let l := ExampleApi.parseInt env (ExampleApi.or_else limit "100") in
  let o := ExampleApi.parseInt env (ExampleApi.or_else offset "0") in
  ExampleApi.bound l = None ∨ ExampleApi.bound o = None ∨ ExampleApi.read_conn env = Pg.Down →
  (ExampleApi.files_get env limit offset w).2
  = Sent (ExampleApi.Listing.mk [] 0 0 l o) 200
  ∧ files (ExampleApi.files_get env limit offset w).1 = files w
  ∧ uploads (ExampleApi.files_get env limit offset w).1 = uploads w.
Proof.
  intros l o Hbad. unfold ExampleApi.files_get. fold l o. cbn [fst snd files uploads emit].
  split; [|done].
  assert (ExampleApi.getAllFiles (ExampleApi.read_conn env) (files w) (Some l) (Some o) = [])
    as ->; [|done].
  unfold ExampleApi.getAllFiles. cbn [default from_option id].
  destruct Hbad as [-> | [-> | ->]]; [by destruct (ExampleApi.read_conn env)| |done].
  by destruct (ExampleApi.read_conn env), (ExampleApi.bound l).
Qed.

Lemma files_get_bad_paging_witness :
  (ExampleApi.files_get sample_reads (Some "-1") None hello_world).2
  = Sent (ExampleApi.Listing.mk [] 0 0 (ExampleApi.Int (-1)) (ExampleApi.Int 0)) 200
  ∧ files (ExampleApi.files_get sample_reads (Some "-1") None hello_world).1
    = files hello_world
  ∧ uploads (ExampleApi.files_get sample_reads (Some "-1") None hello_world).1
    = uploads hello_world.
Proof.
  apply (files_get_bad_paging sample_reads (Some "-1") None hello_world).
  left. reflexivity.
Defined.

(** ** Search *)






Lemma like_all_percent esc (p s : list ascii) :
  Forall (λ c, c = "%"%char) p → p ≠ [] → Pg.like esc p s = true.
Proof.
  intros Hp. revert s. induction Hp as [|c p -> Hp IH]; intros s Hne; [done|].
  apply like_percent. destruct p as [|c' p'].
  - exists (length s). by rewrite drop_all.
  - exists 0%nat. by apply IH.
Qed.

(** X6.  The Bun search does not escape the query: one made of [%] alone
    matches every row, so the search returns the 50 newest files
    whatever they are called. *)
Theorem search_percent_matches_all (db : Table) (query : string) :
  Forall (λ c, c = "%"%char) (list_ascii_of_string query) →
  ExampleApi.searchFiles Pg.Up db query None
  = ExampleApi.getRecentFiles Pg.Up db (Some (ExampleApi.Int 50)).
Proof.
  intros Hq. unfold ExampleApi.searchFiles, ExampleApi.getRecentFiles.
  cbn [default from_option id]. rewrite bound_Int by lia.
  change (Z.to_nat 50) with 50%nat. do 2 f_equal.
  apply List_filter_all. intros r. unfold ExampleApi.search_hit, Pg.ilike.
  rewrite !list_ascii_of_string_app. rewrite like_all_percent; [done| |done].
  apply Forall_app. split; [by repeat constructor|].
  apply Forall_app. split; [exact Hq|by repeat constructor].
Qed.

Lemma search_percent_matches_all_witness :
  ExampleApi.searchFiles Pg.Up fifty_one_rows "%" None
  = ExampleApi.getRecentFiles Pg.Up fifty_one_rows (Some (ExampleApi.Int 50)).
Proof. apply search_percent_matches_all. repeat constructor. Defined.


(** X7.  The search routes refuse a missing or empty query with 400; the
    CodeIgniter route also refuses the query "0", which PHP takes for
    false, while the Bun route searches for it. *)
Theorem search_refused_queries (conn : Pg.Conn) (q : option string) (w : World) :
  (status (ExampleApi.files_get_search conn q w).2 = 400%nat ↔ q = None ∨ q = Some "")
  ∧ (status (Ci4.search q w).2 = 400%nat ↔ q = None ∨ q = Some "" ∨ q = Some "0").
Proof.
  split.
  - unfold ExampleApi.files_get_search. destruct q as [query|]; [|by split; [left|]].
    unfold truthy. destruct (String.eqb_spec query "") as [->|Hne]; cbn.
    + split; [by right|done].
    + split; [done|]. intros [?|[= ?]]; done.
  - unfold Ci4.search. destruct q as [query|]; [|by split; [left|]].
    unfold Ci4.php_truthy.
    destruct (String.eqb_spec query "") as [->|Hne]; cbn.
    { split; [by right; left|done]. }
    destruct (String.eqb_spec query "0") as [->|Hne0]; cbn.
    { split; [by right; right|done]. }
    split; [done|]. intros [?|[[= ?]|[= ?]]]; done.
Qed.

(** ** Statistics *)

Section Statistics.

Implicit Types (r x : FileRecord.t) (l db : Table).
















End Statistics.


Example stats_of_two_a_world :
  ∃ s, ExampleApi.getStorageStats Pg.Up (files two_a_world) = Some s
  ∧ Stats.totalFiles s = 3 ∧ Stats.totalSize s = 9
  ∧ Stats.instanceDistribution s !! "app1" = Some (Stats.mkInstance 2 6)
  ∧ Stats.instanceDistribution s !! "app2" = Some (Stats.mkInstance 1 3)
  ∧ Stats.instanceDistribution s !! "app3" = None.
Proof. eexists. split; [reflexivity|]. repeat split; vm_compute; reflexivity. Qed.


(** ** Downloads *)

(** What an insert that runs alone can do: hand back a stored row,
    or nothing, with the table as it was; or append the new row. *)
Lemma insertFile_alone conn uuid now db fileData db' o :
  ExampleApi.insertFile conn uuid now [] db fileData = (db', o) →
  (db' = db
   ∧ (o = None
      ∨ ∃ r, o = Some r ∧ r ∈ db
             ∧ same_content (FileInsert.checksum fileData) (FileInsert.size fileData) r))
  ∨ (Pg.violation db (ExampleApi.new_row uuid now fileData) = None
     ∧ db' = db ++ [ExampleApi.new_row uuid now fileData]
     ∧ o = Some (ExampleApi.new_row uuid now fileData)).
Proof.
  unfold ExampleApi.insertFile. rewrite !app_nil_r.
  destruct conn; [|intros [= <- <-]; left; by split; [|left]].
  destruct (0 <? length _)%nat.
  - destruct (head _) as [existingFile|] eqn:Hh; [|intros [= <- <-]; left; by split; [|left]].
    destruct (truthy _ && truthy _); intros [= <- <-]; left; (split; [done|]); [|by left].
    right. exists existingFile. split; [done|].
    apply head_Some_elem_of in Hh. apply list_elem_of_filter in Hh as [? ?]. done.
  - destruct (Pg.insert _ _) as [e|db1] eqn:E; intros [= <- <-].
    + left. by split; [|left].
    + right. apply insert_inr in E as [Hv ->]. done.
Qed.





(** X11.  In the Bun service, content that is already stored and arrives
    under a name no row carries is answered 201, yet no row gets that
    name: the download route answers 404 for it right after. *)
Theorem duplicate_upload_not_downloadable (env : ExampleApi.UploadEnv)
    (file : ExampleApi.File) (w : World) (r : FileRecord.t) (conn : Pg.Conn) :
  ExampleApi.size file ≤ ExampleApi.maxSize →
  ExampleApi.insert_conn env = Pg.Up →
  ExampleApi.meanwhile env = [] →
  ExampleApi.write_ok env = true →
  table_ok (files w) →
  r ∈ files w →
  same_content (hex_of_bytes (SHA256.digest (ExampleApi.content file)))
    (ExampleApi.size file) r →
  filter (named (ExampleApi.name file)) (files w) = [] →
  status (post_file env file w).2 = 201%nat
  ∧ (ExampleApi.files_get_file conn (ExampleApi.name file) (post_file env file w).1).2
    = Failed "File not found" 404.
Proof.
  intros Hsize Hconn Hmean Hdisk Hok Hin Hr Hname.
  destruct (upload_existing_content env file w r Hsize Hconn Hmean Hdisk Hok Hin Hr)
    as (Hfiles & _ & ->).
  split; [reflexivity|].
  unfold ExampleApi.files_get_file.
  rewrite Hfiles, getFileByOriginalName_none by exact Hname. reflexivity.
Qed.

Lemma duplicate_upload_not_downloadable_witness :
  status (post_file later_upload hello_b hello_world).2 = 201%nat
  ∧ (ExampleApi.files_get_file Pg.Up (ExampleApi.name hello_b)
       (post_file later_upload hello_b hello_world).1).2
    = Failed "File not found" 404.
Proof.
  apply (duplicate_upload_not_downloadable later_upload hello_b hello_world hello_row Pg.Up).
  - vm_compute. discriminate.
  - reflexivity.
  - reflexivity.
  - reflexivity.
  - apply served_table_ok, hello_world_served.
  - apply (bool_decide_unpack _). vm_compute. exact I.
  - split; vm_compute; reflexivity.
  - vm_compute. reflexivity.
Defined.

Lemma filter_named_removed name (db : Table) :
  filter (named name) (filter (λ x, ¬ named name x) db) = [].
Proof.
  induction db as [|x db IH]; [done|].
  rewrite (filter_cons (λ x, ¬ named name x)).
  destruct (decide (¬ named name x)); [by rewrite filter_cons_False|done].
Qed.

(** X12.  After the delete route has answered 200 for a name, the
    download route answers 404 "File not found" for it, whether or not
    [rm] removed the blob. *)
Theorem delete_then_download (env : ExampleApi.DeleteEnv) (conn : Pg.Conn) (name : string)
    (w : World) :
  status (ExampleApi.files_delete env name w).2 = 200%nat →
  (ExampleApi.files_get_file conn name (ExampleApi.files_delete env name w).1).2
  = Failed "File not found" 404.
Proof.
  intros H200.
  destruct (ExampleApi.getFileByOriginalName (ExampleApi.lookup_conn env) (files w) name)
    as [r|] eqn:Hfound.
  2:{ unfold ExampleApi.files_delete in H200. rewrite Hfound in H200. discriminate. }
  destruct (ExampleApi.delete_conn env) eqn:Hconn.
  2:{ unfold ExampleApi.files_delete in H200. rewrite Hfound, Hconn in H200. discriminate. }
  destruct (remove_found env name w r Hfound Hconn) as (_ & Hfiles & _).
  unfold ExampleApi.files_get_file. rewrite Hfiles, getFileByOriginalName_none; [done|].
  apply filter_named_removed.
Qed.

Lemma delete_then_download_witness :
  (ExampleApi.files_get_file Pg.Up "a.txt"
     (ExampleApi.files_delete (ExampleApi.mkDeleteEnv Pg.Up Pg.Up false) "a.txt"
        hello_world).1).2
  = Failed "File not found" 404.
Proof. apply delete_then_download. vm_compute. reflexivity. Defined.

(** ** Blobs and the digests their rows record *)

Lemma blob_path_inj r filename :
  blob_path r = "./uploads/" +:+ filename → FileRecord.filename r = filename.
Proof. unfold blob_path. apply (inj (String.app "./uploads/")). Qed.

(** X13.  In a world where every blob a row points to has the digest the
    row records, a download that answers 200 sends bytes whose SHA-256
    is the X-File-Checksum header. *)
Theorem download_matches_checksum (conn : Pg.Conn) (name : string) (w : World)
    (d : Download) (status : nat) :
  blobs_match w →
  (ExampleApi.files_get_file conn name w).2 = Sent d status →
  X_File_Checksum d = hex_of_bytes (SHA256.digest (payload d)).
Proof.
  intros Hw. unfold ExampleApi.files_get_file.
  destruct (ExampleApi.getFileByOriginalName conn (files w) name) as [r|] eqn:Hfound;
    [|discriminate].
  apply getFileByOriginalName_some in Hfound as (_ & Hin & _).
  cbn [emit uploads].
  destruct (uploads w !! ("./uploads/" +:+ FileRecord.filename r)) as [bytes|] eqn:Hblob;
    [|discriminate].
  intros [= <- _]. cbn. by apply (Hw r bytes).
Qed.

Lemma blobs_match_hello_world : blobs_match hello_world.
Proof.
  intros r bytes Hr. assert (r = hello_row) as ->.
  { apply list_elem_of_singleton. exact Hr. }
  intros Hblob. vm_compute in Hblob. injection Hblob as <-. vm_compute. reflexivity.
Qed.

Lemma download_matches_checksum_witness :
  ∃ d, (ExampleApi.files_get_file Pg.Up "a.txt" hello_world).2 = Sent d 200
     ∧ X_File_Checksum d = hex_of_bytes (SHA256.digest (payload d)).
Proof.
  eexists. split; [vm_compute; reflexivity|].
  apply (download_matches_checksum Pg.Up "a.txt" hello_world _ 200 blobs_match_hello_world).
  vm_compute. reflexivity.
Defined.

Lemma deleteFile_subset conn (db : Table) name r :
  r ∈ (ExampleApi.deleteFile conn db name).1 → r ∈ db.
Proof.
  unfold ExampleApi.deleteFile. destruct conn; [|done].
  destruct (filter (named name) db); [done|]. cbn.
  by intros [_ ?]%list_elem_of_filter.
Qed.

(** X14.  The upload and delete routes keep that agreement, provided the
    upload runs alone and its storage key is new to both stores. *)
Theorem routes_keep_blobs_match (w : World) :
  blobs_match w →
  (∀ env req,
     ExampleApi.meanwhile env = [] →
     (∀ file, req = ExampleApi.FormData (ExampleApi.FileField file) →
        (ExampleApi.storage_name env file ∉ (FileRecord.filename <$> files w))
        ∧ uploads w !! ("./uploads/" +:+ ExampleApi.storage_name env file) = None) →
     blobs_match (ExampleApi.files_post env req w).1)
  ∧ (∀ env name, blobs_match (ExampleApi.files_delete env name w).1).
Proof.
  intros Hw. split.
  - intros env req Hmean Hfresh.
    destruct req as [|[|s|file]]; [exact Hw.. | | ].
    { cbn. destruct (truthy s); exact Hw. }
    destruct (Hfresh file eq_refl) as [Hkey Hpath]. clear Hfresh.
    rewrite upload_file_unfold.
    destruct (ExampleApi.maxSize <? ExampleApi.size file); [exact Hw|]. cbv zeta.
    rewrite Hmean.
    destruct (ExampleApi.insertFile _ _ _ _ _ _) as [db' o] eqn:E. cbn [fst snd].
    assert (∀ r, r ∈ db' →
              r ∈ files w
              ∨ (FileRecord.filename r = ExampleApi.storage_name env file
                 ∧ FileRecord.checksum r
                   = hex_of_bytes (SHA256.digest (ExampleApi.content file)))) as Hrows.
    { apply insertFile_alone in E as [[-> _]|(_ & -> & _)]; intros r Hr; [by left|].
      apply elem_of_app in Hr as [Hr|Hr]; [by left|].
      apply list_elem_of_singleton in Hr as ->. by right. }
    assert (∀ r, r ∈ files w →
              blob_path r ≠ "./uploads/" +:+ ExampleApi.storage_name env file) as Hother.
    { intros r Hr Heq%blob_path_inj. apply Hkey. rewrite <- Heq.
      by apply list_elem_of_fmap_2. }
    destruct o as [fileRecord|].
    + destruct (ExampleApi.write_ok env).
      * intros r bytes Hr. cbn in Hr. cbn [fst emit set_uploads set_files uploads].
        destruct (Hrows r Hr) as [Hold|[Hfn Hsum]].
        -- rewrite lookup_insert_ne by (intros Heq; by apply (Hother r Hold)).
           by apply Hw.
        -- unfold blob_path. rewrite Hfn, lookup_insert_eq. by intros [= <-].
      * intros r bytes Hr. cbn in Hr. apply deleteFile_subset in Hr. cbn.
        destruct (Hrows r Hr) as [Hold|[Hfn Hsum]]; [by apply Hw|].
        unfold blob_path. rewrite Hfn, Hpath. discriminate.
    + intros r bytes Hr. cbn in Hr. cbn.
      destruct (Hrows r Hr) as [Hold|[Hfn Hsum]]; [by apply Hw|].
      unfold blob_path. rewrite Hfn, Hpath. discriminate.
  - intros env name. unfold ExampleApi.files_delete.
    destruct (ExampleApi.getFileByOriginalName _ _ _) as [fileRecord|]; [|exact Hw].
    cbn [files emit].
    pose proof (deleteFile_subset (ExampleApi.delete_conn env) (files w) name) as Hsub.
    destruct (ExampleApi.deleteFile _ _ _) as [db deleted]. cbn [fst] in Hsub.
    destruct deleted; cbn.
    + intros r bytes Hr. cbn in Hr. destruct (ExampleApi.rm_ok env); cbn.
      * intros Hblob. apply lookup_delete_Some in Hblob as [_ Hblob].
        apply Hw; [by apply Hsub | exact Hblob].
      * apply Hw. by apply Hsub.
    + intros r bytes Hr. cbn in Hr. cbn. apply Hw. by apply Hsub.
Qed.

Lemma blobs_match_empty_world : blobs_match empty_world.
Proof. intros r bytes Hr. by apply elem_of_nil in Hr. Qed.

Lemma routes_keep_blobs_match_witness :
  blobs_match (post_file quiet_upload hello_a empty_world).1
  ∧ blobs_match (ExampleApi.files_delete quiet_delete "a.txt" empty_world).1.
Proof.
  destruct (routes_keep_blobs_match empty_world blobs_match_empty_world) as [Hpost Hdel].
  split; [|apply Hdel].
  apply Hpost; [reflexivity|]. intros file _. split; [|reflexivity].
  intros Hin. by apply elem_of_nil in Hin.
Defined.

(** ** Storage keys *)

Lemma keys_unique_filter (P : FileRecord.t → Prop) `{!∀ r, Decision (P r)} db :
  keys_unique db → keys_unique (filter P db).
Proof.
  intros [Hfn Hid]. split.
  - eapply sublist_NoDup; [exact Hfn|]. apply fmap_sublist, sublist_filter.
  - eapply sublist_NoDup; [exact Hid|]. apply fmap_sublist, sublist_filter.
Qed.

Lemma keys_unique_deleteFile conn db name :
  keys_unique db → keys_unique (ExampleApi.deleteFile conn db name).1.
Proof.
  intros Hok. unfold ExampleApi.deleteFile. destruct conn; [|exact Hok].
  destruct (filter (named name) db); [exact Hok|]. cbn. by apply keys_unique_filter.
Qed.

Lemma keys_unique_insertFile conn uuid now db fileData :
  keys_unique db → keys_unique (ExampleApi.insertFile conn uuid now [] db fileData).1.
Proof.
  intros Hok.
  destruct (ExampleApi.insertFile conn uuid now [] db fileData) as [db' o] eqn:E.
  apply insertFile_alone in E as [[-> _]|(Hv & -> & _)]; [exact Hok|].
  apply violation_None in Hv as (_ & Hid & Hfn & _). destruct Hok as [Hfns Hids].
  cbn [fst]. split; rewrite fmap_app; apply NoDup_app.
  - split; [exact Hfns|]. split; [|apply NoDup_singleton].
    intros k Hk Hk'. apply list_elem_of_singleton in Hk'. by subst k.
  - split; [exact Hids|]. split; [|apply NoDup_singleton].
    intros k Hk Hk'. apply list_elem_of_singleton in Hk'. by subst k.
Qed.

Lemma served_keys_unique w : served w → keys_unique (files w).
Proof.
  induction 1 as [|env req w _ IH Hmean Hid|env name w _ IH|conn q w _ IH].
  - split; constructor.
  - destruct req as [|[|s|file]]; [exact IH.. | | ].
    { cbn. destruct (truthy s); exact IH. }
    rewrite upload_file_unfold.
    destruct (ExampleApi.maxSize <? ExampleApi.size file); [exact IH|]. cbv zeta.
    rewrite Hmean.
    pose proof (keys_unique_insertFile (ExampleApi.insert_conn env)
                  (ExampleApi.gen_random_uuid env) (ExampleApi.NOW env) (files w)
                  (ExampleApi.candidate env file
                     (hex_of_bytes (SHA256.digest (ExampleApi.content file)))) IH) as Hins.
    destruct (ExampleApi.insertFile _ _ _ _ _ _).2; [|exact Hins].
    destruct (ExampleApi.write_ok env); [exact Hins|].
    cbn [fst files emit set_files]. by apply keys_unique_deleteFile.
  - unfold ExampleApi.files_delete.
    destruct (ExampleApi.getFileByOriginalName _ _ _); [|exact IH].
    cbn [files emit].
    pose proof (keys_unique_deleteFile (ExampleApi.delete_conn env) (files w) name IH) as Hdel.
    destruct (ExampleApi.deleteFile _ _ _) as [db deleted]. cbn [fst] in Hdel.
    destruct deleted; cbn; [|exact Hdel].
    destruct (ExampleApi.rm_ok env); exact Hdel.
  - unfold ExampleApi.files_get_search. destruct q as [query|]; [|exact IH].
    destruct (truthy query); exact IH.
Qed.

Lemma NoDup_fmap_eq {A B} (f : A → B) (l : list A) x y :
  NoDup (f <$> l) → x ∈ l → y ∈ l → f x = f y → x = y.
Proof.
  induction l as [|z l IH]; intros Hnd Hx Hy Hf; [by apply elem_of_nil in Hx|].
  rewrite fmap_cons in Hnd. apply NoDup_cons in Hnd as [Hz Hnd].
  apply elem_of_cons in Hx as [->|Hx]; apply elem_of_cons in Hy as [->|Hy]; try done.
  - exfalso. apply Hz. rewrite Hf. by apply list_elem_of_fmap_2.
  - exfalso. apply Hz. rewrite <- Hf. by apply list_elem_of_fmap_2.
  - by apply IH.
Qed.

(** X15.  In every world the routes reach, storage keys and ids are
    unique, so [getFileByFilename] finds a row exactly when the table
    holds one under that storage key, and then it is that row. *)
Theorem getFileByFilename_exact (w : World) (filename : string) (r : FileRecord.t) :
  served w →
  keys_unique (files w)
  ∧ (ExampleApi.getFileByFilename Pg.Up (files w) filename = Some r
     ↔ r ∈ files w ∧ FileRecord.filename r = filename).
Proof.
  intros Hw. pose proof (served_keys_unique w Hw) as Hok. split; [exact Hok|].
  unfold ExampleApi.getFileByFilename. split.
  - intros Hh%head_Some_elem_of. by apply list_elem_of_filter in Hh as [? ?].
  - intros [Hin Hfn].
    destruct (filter (ExampleApi.stored_as filename) (files w)) as [|x rest] eqn:E.
    + exfalso. by eapply (filter_nil_not_elem_of _ _ r E).
    + cbn. f_equal.
      assert (x ∈ filter (ExampleApi.stored_as filename) (files w)) as [Hx Hxin]%list_elem_of_filter
        by (rewrite E; left).
      apply (NoDup_fmap_eq FileRecord.filename (files w)); [apply Hok|done..|].
      unfold ExampleApi.stored_as in Hx. congruence.
Qed.

Lemma getFileByFilename_exact_witness :
  keys_unique (files hello_world)
  ∧ (ExampleApi.getFileByFilename Pg.Up (files hello_world) "1700000000000_k3x9qa_a.txt"
     = Some hello_row
     ↔ hello_row ∈ files hello_world
       ∧ FileRecord.filename hello_row = "1700000000000_k3x9qa_a.txt").
Proof. apply getFileByFilename_exact. apply hello_world_served. Defined.

(** ** Names PHP takes for false *)


(** ** The rendering of the digest *)

(** X17.  The hexadecimal rendering loses nothing: the bytes can be read
    back from it, so two digests render alike only when they are
    equal, and two inputs get the same checksum only when their SHA-256
    digests agree. *)
Theorem hex_of_bytes_inj (a b : Bytes) (u v : ExampleApi.Value) :
  unhex (hex_of_bytes a) = a
  ∧ (hex_of_bytes a = hex_of_bytes b → a = b)
  ∧ (∀ checksum,
       ExampleApi.calculateChecksum u = ExampleApi.resolved checksum →
       ExampleApi.calculateChecksum v = ExampleApi.resolved checksum →
       SHA256.digest (ExampleApi.bytes_of u) = SHA256.digest (ExampleApi.bytes_of v)).
Proof.
  split; [apply unhex_hex_of_bytes|]. split.
  - intros H. rewrite <- (unhex_hex_of_bytes a), <- (unhex_hex_of_bytes b). by rewrite H.
  - intros checksum Hu Hv.
    assert (∀ x c, ExampleApi.calculateChecksum x = ExampleApi.resolved c →
                   c = hex_of_bytes (SHA256.digest (ExampleApi.bytes_of x))) as Hres.
    { intros x c. destruct x; cbn; intros [= <-]; reflexivity. }
    apply Hres in Hu, Hv.
    rewrite <- (unhex_hex_of_bytes (SHA256.digest (ExampleApi.bytes_of u))).
    rewrite <- (unhex_hex_of_bytes (SHA256.digest (ExampleApi.bytes_of v))).
    congruence.
Qed.

(** ** The read routes *)

(** X18.  The recent route lists at most [limit] files, newest first, and
    leaves out no file that is newer than one it lists; it reports the
    list and its length. *)
Theorem files_get_recent_newest (env : ExampleApi.ReadEnv) (limit : option string)
    (w : World) (n : nat) :
  ExampleApi.read_conn env = Pg.Up →
  ExampleApi.bound (ExampleApi.parseInt env (ExampleApi.or_else limit "10")) = Some n →
  let recent := take n (Pg.order_by_uploaded_at_desc (files w)) in
  (ExampleApi.files_get_recent env limit w).2
  = Sent (ExampleApi.hit <$> recent, length recent) 200
  ∧ length recent = Nat.min n (length (files w))
  ∧ StronglySorted newer_or_equal recent
  ∧ (∀ r, r ∈ recent → r ∈ files w)
  ∧ (∀ r r', r ∈ files w → r ∉ recent → r' ∈ recent → newer_or_equal r' r).
Proof.
  intros Hconn Hbound recent.
  pose proof (order_by_sorted (files w)) as Hsorted.
  split.
  { unfold ExampleApi.files_get_recent, ExampleApi.getRecentFiles.
    cbn [default from_option id]. by rewrite Hconn, Hbound. }
  split; [unfold recent; by rewrite length_take, order_by_length|].
  split.
  { rewrite <- (take_drop n (Pg.order_by_uploaded_at_desc (files w))) in Hsorted.
    by apply StronglySorted_app_1_l in Hsorted. }
  split.
  { intros r Hr. apply subseteq_take in Hr. by apply order_by_elem_of. }
  intros r r' Hr Hout Hr'.
  apply (sorted_take_drop n (Pg.order_by_uploaded_at_desc (files w))); try assumption.
  apply (proj2 (order_by_elem_of _ _)) in Hr.
  rewrite <- (take_drop n (Pg.order_by_uploaded_at_desc (files w))) in Hr.
  apply elem_of_app in Hr as [Hr|Hr]; [|exact Hr].
  destruct (Hout Hr).
Qed.

Lemma files_get_recent_newest_witness :
  (ExampleApi.files_get_recent sample_reads (Some "2") two_a_world).2
  = Sent (ExampleApi.hit <$> take 2 (Pg.order_by_uploaded_at_desc (files two_a_world)),
          length (take 2 (Pg.order_by_uploaded_at_desc (files two_a_world)))) 200.
Proof.
  apply (files_get_recent_newest sample_reads (Some "2") two_a_world 2); reflexivity.
Defined.

(** X19.  A lost database connection is not reported by the read routes:
    the list, recent and search routes answer 200 with no files, the
    statistics route answers 200 with JSON null, and the download route
    answers 404 "File not found". *)
Theorem read_routes_hide_database_failure (env : ExampleApi.ReadEnv)
    (limit offset : option string) (query name : string) (w : World) :
  ExampleApi.read_conn env = Pg.Down →
  truthy query = true →
  (ExampleApi.files_get env limit offset w).2
  = Sent (ExampleApi.Listing.mk [] 0 0
            (ExampleApi.parseInt env (ExampleApi.or_else limit "100"))
            (ExampleApi.parseInt env (ExampleApi.or_else offset "0"))) 200
  ∧ (ExampleApi.files_get_recent env limit w).2 = Sent ([], 0%nat) 200
  ∧ (ExampleApi.files_get_search (ExampleApi.read_conn env) (Some query) w).2
    = json (Body.Search [] 0 query) 200
  ∧ (ExampleApi.files_get_stats (ExampleApi.read_conn env) w).2 = Sent None 200
  ∧ (ExampleApi.files_get_file (ExampleApi.read_conn env) name w).2
    = Failed "File not found" 404.
Proof.
  intros Hconn Hq.
  unfold ExampleApi.files_get, ExampleApi.files_get_recent, ExampleApi.files_get_search,
    ExampleApi.files_get_stats, ExampleApi.files_get_file,
    ExampleApi.getAllFiles, ExampleApi.getRecentFiles.
  rewrite Hconn, Hq. done.
Qed.

Lemma read_routes_hide_database_failure_witness :
  (ExampleApi.files_get_file Pg.Down "a.txt" hello_world).2 = Failed "File not found" 404.
Proof.
  apply (read_routes_hide_database_failure
           (ExampleApi.mkReadEnv sample_parseInt Pg.Down) None None "a" "a.txt" hello_world);
    reflexivity.
Defined.

(** ** CodeIgniter: duplicates *)



(** X21.  In the CodeIgniter service, content that is already stored and
    arrives under a name no row carries is answered 201 with the
    duplicate flag set and the stored row's id; nothing is written, and
    the download route answers 404 for the new name. *)
Theorem ci4_duplicate_upload_not_downloadable (env : Ci4.CreateEnv)
    (file : Ci4.UploadedFile) (w : World) (r : FileRecord.t) :
  Ci4.getSize file ≤ Ci4.MAX_FILE_SIZE →
  Ci4.meanwhile env = [] →
  table_ok (files w) →
  r ∈ files w →
  same_content (Ci4.calculate (Ci4.contents file)) (Ci4.getSize file) r →
  FileRecord.filename r ≠ Ci4.storage_name env file →
  filter (named (Ci4.getClientName file)) (files w) = [] →
  Ci4.php_truthy (Ci4.getClientName file) = true →
  let after := Ci4.create env (Some file) w in
  (∃ u, after.2 = json (Body.Uploaded u) 201
        ∧ Body.duplicate u = Some true ∧ Body.id u = FileRecord.id r)
  ∧ files after.1 = files w
  ∧ uploads after.1 = uploads w
  ∧ (Ci4.show (Ci4.uploadDir env) (Some (Ci4.getClientName file)) after.1).2
    = Failed "File not found" 404.
Proof.
  intros Hsize Hmean Hok Hin Hr Hfresh Hname Htruthy after. unfold after.
  destruct (ci4_create_existing_content env file w r Hsize Hmean Hok Hin Hr Hfresh)
    as (Hfiles & Hblobs & ->).
  split; [by eexists|]. split; [exact Hfiles|]. split; [exact Hblobs|].
  unfold Ci4.show. rewrite Htruthy. cbn [negb].
  unfold Ci4.findByOriginalName. by rewrite Hfiles, Hname.
Qed.

Lemma ci4_duplicate_upload_not_downloadable_witness :
  (Ci4.show (Ci4.uploadDir ci4_later) (Some (Ci4.getClientName ci4_hello_b))
     (Ci4.create ci4_later (Some ci4_hello_b) ci4_hello_world).1).2
  = Failed "File not found" 404.
Proof.
  apply (ci4_duplicate_upload_not_downloadable ci4_later ci4_hello_b ci4_hello_world
           ci4_hello_row).
  - vm_compute. discriminate.
  - reflexivity.
  - unfold table_ok. apply (bool_decide_unpack _). vm_compute. exact I.
  - apply (bool_decide_unpack _). vm_compute. exact I.
  - split; vm_compute; reflexivity.
  - apply (bool_decide_unpack _). vm_compute. exact I.
  - vm_compute. reflexivity.
  - reflexivity.
Defined.

(** ** api-test.lua *)

Section LoadScript.

Implicit Types (items : list LoadTest.Endpoint) (item : LoadTest.Endpoint).

Lemma foldl_add_weight a items :
  foldl LoadTest.add_weight a items = a + foldl LoadTest.add_weight 0 items.
Proof.
  revert a. induction items as [|x items IH]; intros a; simpl; [lia|].
  rewrite (IH (LoadTest.add_weight a x)), (IH (LoadTest.add_weight 0 x)).
  unfold LoadTest.add_weight. lia.
Qed.

(** The second loop, from a running total [c]: the item it returns is
    the first at which the total reaches the draw. *)
Lemma first_reached_spec rw c items :
  match LoadTest.first_reached rw c items with
  | Some item =>
      ∃ i, items !! i = Some item
         ∧ QArith_base.Qle rw
             (QArith_base.inject_Z (c + foldl LoadTest.add_weight 0 (take (S i) items)))
         ∧ ∀ j, (j < i)%nat →
             ¬ QArith_base.Qle rw
                 (QArith_base.inject_Z (c + foldl LoadTest.add_weight 0 (take (S j) items)))
  | None =>
      ∀ j, (j < length items)%nat →
        ¬ QArith_base.Qle rw
            (QArith_base.inject_Z (c + foldl LoadTest.add_weight 0 (take (S j) items)))
  end.
Proof.
  revert c. induction items as [|x items IH]; intros c.
  - intros j Hj. simpl in Hj. lia.
  - assert (c + foldl LoadTest.add_weight 0 (take 1 (x :: items)) = LoadTest.add_weight c x)
      as Hfirst.
    { simpl. unfold LoadTest.add_weight. lia. }
    assert (∀ j, c + foldl LoadTest.add_weight 0 (take (S (S j)) (x :: items))
                 = LoadTest.add_weight c x + foldl LoadTest.add_weight 0 (take (S j) items))
      as Hshift.
    { intros j. simpl.
      rewrite (foldl_add_weight (LoadTest.add_weight 0 x)).
      unfold LoadTest.add_weight. lia. }
    cbn [LoadTest.first_reached].
    destruct (QArith_base.Qle_bool rw (QArith_base.inject_Z (LoadTest.add_weight c x)))
      eqn:E.
    + exists 0%nat. split; [done|]. split; [|intros j Hj; lia].
      rewrite Hfirst. by apply QArith_base.Qle_bool_iff.
    + assert (¬ QArith_base.Qle rw (QArith_base.inject_Z (LoadTest.add_weight c x))) as Hx.
      { intros H%QArith_base.Qle_bool_iff. congruence. }
      specialize (IH (LoadTest.add_weight c x)).
      destruct (LoadTest.first_reached rw (LoadTest.add_weight c x) items) as [item|].
      * destruct IH as (i & Hi & Hle & Hlt). exists (S i). split; [done|].
        split; [by rewrite Hshift|].
        intros [|j] Hj; [by rewrite Hfirst|].
        rewrite Hshift. apply Hlt. lia.
      * intros [|j] Hj; [by rewrite Hfirst|].
        rewrite Hshift. apply IH. simpl in Hj. lia.
Qed.

End LoadScript.

(** X22.  [weighted_random] returns the first item at which the running
    total of the weights reaches the draw.  When the draw does not
    exceed the total weight, as a product of a number below 1 and the
    total cannot, the fallback to the first item is never taken. *)
Theorem weighted_random_first_reached (scaled : Z → QArith_base.Q)
    (items : list LoadTest.Endpoint) :
  let total_weight := foldl LoadTest.add_weight 0 items in
  items ≠ [] →
  QArith_base.Qle (scaled total_weight) (QArith_base.inject_Z total_weight) →
  ∃ i item,
    items !! i = Some item
    ∧ LoadTest.weighted_random scaled items = Some item
    ∧ QArith_base.Qle (scaled total_weight) (weight_up_to (S i) items)
    ∧ ∀ j, (j < i)%nat → ¬ QArith_base.Qle (scaled total_weight) (weight_up_to (S j) items).
Proof.
  intros total_weight Hne Hle. unfold LoadTest.weighted_random. fold total_weight.
  pose proof (first_reached_spec (scaled total_weight) 0 items) as Hspec.
  destruct (LoadTest.first_reached (scaled total_weight) 0 items) as [item|].
  - destruct Hspec as (i & Hi & Hreach & Hbefore). exists i, item.
    split; [exact Hi|]. split; [reflexivity|]. split; [exact Hreach|exact Hbefore].
  - exfalso. destruct items as [|x items]; [done|].
    apply (Hspec (length items)); [simpl; lia|].
    rewrite take_ge by (simpl; lia). exact Hle.
Qed.

Lemma weighted_random_first_reached_witness :
  ∃ i item,
    LoadTest.endpoints !! i = Some item
    ∧ LoadTest.weighted_random (LoadTest.scaled (draws_at 70)) LoadTest.endpoints = Some item
    ∧ QArith_base.Qle (LoadTest.scaled (draws_at 70) (foldl LoadTest.add_weight 0 LoadTest.endpoints))
        (weight_up_to (S i) LoadTest.endpoints)
    ∧ ∀ j, (j < i)%nat →
        ¬ QArith_base.Qle
            (LoadTest.scaled (draws_at 70) (foldl LoadTest.add_weight 0 LoadTest.endpoints))
            (weight_up_to (S j) LoadTest.endpoints).
Proof.
  apply (weighted_random_first_reached (LoadTest.scaled (draws_at 70)) LoadTest.endpoints).
  - discriminate.
  - vm_compute. discriminate.
Defined.

Lemma weighted_random_elem_of scaled items item :
  LoadTest.weighted_random scaled items = Some item → item ∈ items.
Proof.
  unfold LoadTest.weighted_random.
  pose proof (first_reached_spec (scaled (foldl LoadTest.add_weight 0 items)) 0 items) as Hspec.
  destruct (LoadTest.first_reached _ 0 items) as [x|].
  - intros [= <-]. destruct Hspec as (i & Hi & _). by eapply list_elem_of_lookup_2.
  - apply head_Some_elem_of.
Qed.

(** The list path never reads as a recent path, whatever numbers the
    script draws for it. *)
Lemma list_path_is_not_recent l o :
  10 ≤ l ≤ 100 → 0 ≤ o ≤ 50 →
  LoadTest.string_find ("/api/files?limit=" +:+ pretty l +:+ "&offset=" +:+ pretty o) "/recent"
  = false.
Proof.
  intros Hl Ho.
  assert (forallb (λ l, forallb (λ o,
            negb (LoadTest.string_find
                    ("/api/files?limit=" +:+ pretty l +:+ "&offset=" +:+ pretty o) "/recent"))
            (seqZ 0 51)) (seqZ 10 91) = true) as Hall by (vm_compute; reflexivity).
  rewrite forallb_forall in Hall.
  specialize (Hall l). rewrite forallb_forall in Hall.
  apply negb_true_iff. apply Hall.
  - apply list_elem_of_In, elem_of_seqZ. lia.
  - apply list_elem_of_In, elem_of_seqZ. lia.
Qed.

(** X23.  Whatever endpoint the script draws, the request goes to the
    search path or to the list path: in the pattern ["/api/files?"] the
    question mark makes the [s] optional, so the test for the list path
    holds for every path of the table, and the recent and statistics
    endpoints, and the upload, are sent to the list path with fresh
    paging parameters.  The method is the endpoint's. *)
Theorem load_test_targets (d : LoadTest.Draws) :
  LoadTest.query d ∈ LoadTest.search_queries →
  10 ≤ LoadTest.limit d ≤ 100 →
  0 ≤ LoadTest.offset d ≤ 50 →
  ∃ endpoint,
    endpoint ∈ LoadTest.endpoints
    ∧ LoadTest.weighted_random (LoadTest.scaled d) LoadTest.endpoints = Some endpoint
    ∧ LoadTest.target d
      = Some (LoadTest.method endpoint,
              if String.eqb (LoadTest.path endpoint) "/api/files/search?q=test"
              then "/api/files/search?q=" +:+ LoadTest.query d
              else "/api/files?limit=" +:+ pretty (LoadTest.limit d)
                     +:+ "&offset=" +:+ pretty (LoadTest.offset d)).
Proof.
  intros Hq Hl Ho. unfold LoadTest.target.
  destruct (LoadTest.weighted_random (LoadTest.scaled d) LoadTest.endpoints)
    as [endpoint|] eqn:Hpick.
  2:{ exfalso. unfold LoadTest.weighted_random in Hpick.
      destruct (LoadTest.first_reached _ 0 LoadTest.endpoints); discriminate. }
  exists endpoint. pose proof (weighted_random_elem_of _ _ _ Hpick) as Hin.
  split; [exact Hin|]. split; [reflexivity|].
  pose proof (list_path_is_not_recent _ _ Hl Ho) as Hlist.
  unfold LoadTest.endpoints in Hin.
  repeat (apply elem_of_cons in Hin as [->|Hin]); [..|by apply elem_of_nil in Hin].
  - cbv zeta. cbn [LoadTest.path LoadTest.method].
    change (LoadTest.string_find "/api/files?limit=100&offset=0" "/search") with false.
    cbv iota.
    change (LoadTest.string_find "/api/files?limit=100&offset=0" "/api/files?") with true.
    change (LoadTest.string_find "/api/files?limit=100&offset=0" "search") with false.
    cbn [andb negb]. by rewrite Hlist.
  - cbv zeta. cbn [LoadTest.path LoadTest.method].
    change (LoadTest.string_find "/api/files/search?q=test" "/search") with true.
    cbv iota.
    assert (∀ q, LoadTest.string_find ("/api/files/search?q=" +:+ q) "search" = true) as ->
      by (intros q; vm_compute; reflexivity).
    rewrite andb_false_r.
    assert (LoadTest.string_find ("/api/files/search?q=" +:+ LoadTest.query d) "/recent"
            = false) as ->; [|reflexivity].
    unfold LoadTest.search_queries in Hq.
    repeat (apply elem_of_cons in Hq as [->|Hq]); [..|by apply elem_of_nil in Hq];
      vm_compute; reflexivity.
  - cbv zeta. cbn [LoadTest.path LoadTest.method].
    change (LoadTest.string_find "/api/files/recent?limit=10" "/search") with false.
    cbv iota.
    change (LoadTest.string_find "/api/files/recent?limit=10" "/api/files?") with true.
    change (LoadTest.string_find "/api/files/recent?limit=10" "search") with false.
    cbn [andb negb]. by rewrite Hlist.
  - cbv zeta. cbn [LoadTest.path LoadTest.method].
    change (LoadTest.string_find "/api/files/stats" "/search") with false.
    cbv iota.
    change (LoadTest.string_find "/api/files/stats" "/api/files?") with true.
    change (LoadTest.string_find "/api/files/stats" "search") with false.
    cbn [andb negb]. by rewrite Hlist.
  - cbv zeta. cbn [LoadTest.path LoadTest.method].
    change (LoadTest.string_find "/api/files" "/search") with false.
    cbv iota.
    change (LoadTest.string_find "/api/files" "/api/files?") with true.
    change (LoadTest.string_find "/api/files" "search") with false.
    cbn [andb negb]. by rewrite Hlist.
Qed.

Lemma load_test_targets_witness :
  LoadTest.target (draws_at 70)
  = Some ("GET", "/api/files?limit=25&offset=5").
Proof.
  destruct (load_test_targets (draws_at 70)) as (endpoint & _ & Hpick & ->).
  - apply (bool_decide_unpack _). vm_compute. exact I.
  - cbn. lia.
  - cbn. lia.
  - vm_compute in Hpick. injection Hpick as <-. vm_compute. reflexivity.
Defined.
